(** * Shallow embedding of [main.py]: the [/virtual-try-on] relay service.

    The Flask handler [virtual_try_on], its helpers [download_image] and
    [upload_to_supabase], and the start-up initialisation of the storage
    client are translated into a state-and-exception monad.  Everything the
    handler gets from outside (the parsed JSON body, [uuid.uuid4()], the
    HTTP origins, the Gradio inference service, the Supabase bucket and the
    behaviour of [os.remove]) is an oracle of a [world] record. *)

From Stdlib Require Import String Ascii List Bool Arith Lia.
Import ListNotations.
Open Scope string_scope.

(** ** Python string helpers *)

Definition truthy_str (s : string) : bool := negb (String.eqb s "").

Definition lower_char (c : ascii) : ascii :=
  let n := nat_of_ascii c in
  if (65 <=? n)%nat && (n <=? 90)%nat then ascii_of_nat (n + 32)%nat else c.

(** [str.lower] on ASCII text. *)
Fixpoint lower (s : string) : string :=
  match s with
  | EmptyString => EmptyString
  | String c r => String (lower_char c) (lower r)
  end.

Fixpoint is_prefix (p l : list ascii) : bool :=
  match p, l with
  | [], _ => true
  | a :: p', b :: l' => Ascii.eqb a b && is_prefix p' l'
  | _ :: _, [] => false
  end.

(** [s.endswith(suf)]. *)
Definition endswith (s suf : string) : bool :=
  is_prefix (rev (list_ascii_of_string suf)) (rev (list_ascii_of_string s)).

(** [os.path.basename]: the part after the last ['/']. *)
Fixpoint basename_acc (s acc : string) : string :=
  match s with
  | EmptyString => acc
  | String c r =>
      if Ascii.eqb c "/" then basename_acc r "" else basename_acc r (acc ++ String c "")
  end.

Definition basename (s : string) : string := basename_acc s "".

(** [s.split('?')[0]]. *)
Fixpoint split_q0 (s : string) : string :=
  match s with
  | EmptyString => EmptyString
  | String c r => if Ascii.eqb c "?" then EmptyString else String c (split_q0 r)
  end.

(** ** JSON values, as [request.get_json()] returns them *)

Set Warnings "-register-all".

Inductive json : Type :=
| JNull
| JBool (b : bool)
| JNum (n : nat)
| JStr (s : string)
| JArr (l : list json)
| JObj (kv : list (string * json)).

Definition truthy (j : json) : bool :=
  match j with
  | JNull => false
  | JBool b => b
  | JNum n => negb (Nat.eqb n 0)
  | JStr s => truthy_str s
  | JArr l => match l with [] => false | _ => true end
  | JObj kv => match kv with [] => false | _ => true end
  end.

(** Truthiness of the value of [data.get(k)] ([None] when the key is absent). *)
Definition truthy_opt (o : option json) : bool :=
  match o with Some j => truthy j | None => false end.

Definition type_name (j : json) : string :=
  match j with
  | JNull => "NoneType" | JBool _ => "bool" | JNum _ => "int"
  | JStr _ => "str" | JArr _ => "list" | JObj _ => "dict"
  end.

Fixpoint assoc (k : string) (kv : list (string * json)) : option json :=
  match kv with
  | [] => None
  | (k', v) :: r => if String.eqb k k' then Some v else assoc k r
  end.

(** ** The outside world *)

Inductive dl_outcome : Type :=
| DlOk                              (* body streamed to the file *)
| DlRequestFailed (msg : string)    (* [requests.get] / [raise_for_status] raised *)
| DlStreamFailed (msg : string)     (* [iter_content] raised after [open] *)
| DlOpenFailed (msg : string).      (* [open(filepath, 'wb')] raised [OSError] *)

(** Shape of the value returned by [client.predict]: the Gradio client
    returns local file paths. *)
Inductive infer_result : Type :=
| RTuple (l : list string)
| RList (l : list string)
| ROther.

Inductive predict_outcome : Type :=
| PredRaised (msg : string)
| PredReturned (r : infer_result) (created : list string).

Record world : Type := {
  w_env : string -> option string;          (* [os.getenv] at start-up *)
  w_create_client_fails : bool;             (* [create_client] raises *)
  w_body : string + json;                   (* [request.get_json()]: raises or returns *)
  w_uuid : nat -> string;                   (* successive [str(uuid.uuid4())] *)
  w_download : string -> dl_outcome;
  w_predict : string -> string -> json -> predict_outcome;
  w_upload : string -> string -> option string;   (* bucket, key: raised error *)
  w_public_url : string -> string -> string;      (* bucket, key *)
  w_remove_error : string -> option string;       (* [os.remove] raises *)
  w_fs : list string                              (* files present before the request *)
}.

(** ** Start-up configuration (lines 19-39) *)

Definition SUPABASE_URL (w : world) : option string := w_env w "SUPABASE_URL".
Definition SUPABASE_KEY (w : world) : option string := w_env w "SUPABASE_KEY".
Definition SUPABASE_BUCKET_NAME (w : world) : string :=
  match w_env w "SUPABASE_BUCKET_NAME" with
  | Some b => b
  | None => "virtual-try-extracted"
  end.

Record client : Type := { client_url : string; client_key : string }.

Definition truthy_env (o : option string) : bool :=
  match o with Some s => truthy_str s | None => false end.

(** The module-level [supabase] handle: set once, never reassigned. *)
Definition supabase (w : world) : option client :=
  match SUPABASE_URL w, SUPABASE_KEY w with
  | Some u, Some k =>
      if truthy_str u && truthy_str k then
        if w_create_client_fails w then None
        else Some {| client_url := u; client_key := k |}
      else None
  | _, _ => None
  end.

(** ** Request-local state and the monad *)

Inductive event : Type :=
| EvGet (url : string)
| EvPredict (human garment : string) (desc : json)
| EvUpload (bucket key content_type : string)
| EvPublicUrl (bucket key : string)
| EvRemove (path : string).

Record st : Type := mkSt {
  fs : list string;
  uuid_n : nat;
  trace : list event;
  local_human_path : option string;
  local_garment_path : option string;
  local_gradio_output_path : option string;
  local_gradio_masked_path : option string
}.

Inductive res (A : Type) : Type :=
| Ok (a : A)
| Exc (msg : string).
Arguments Ok {A} a.
Arguments Exc {A} msg.

Definition M (A : Type) : Type := st -> st * res A.

Definition ret {A} (a : A) : M A := fun s => (s, Ok a).
Definition raise {A} (e : string) : M A := fun s => (s, Exc e).
Definition bind {A B} (m : M A) (f : A -> M B) : M B :=
  fun s => let '(s', r) := m s in
           match r with Ok a => f a s' | Exc e => (s', Exc e) end.

Notation "x <- c1 ;; c2" := (bind c1 (fun x => c2))
  (at level 61, c1 at next level, right associativity).
Notation "e1 ;; e2" := (bind e1 (fun _ => e2))
  (at level 61, right associativity).

Definition modify (f : st -> st) : M unit := fun s => (f s, Ok tt).
Definition gets {A} (f : st -> A) : M A := fun s => (s, Ok (f s)).

Definition emit (e : event) : M unit :=
  modify (fun s => mkSt (fs s) (uuid_n s) (trace s ++ [e])%list (local_human_path s)
                        (local_garment_path s) (local_gradio_output_path s)
                        (local_gradio_masked_path s)).

Definition fs_exists (p : string) (l : list string) : bool := existsb (String.eqb p) l.
Definition fs_add (p : string) (l : list string) : list string :=
  if fs_exists p l then l else (l ++ [p])%list.
Definition fs_del (p : string) (l : list string) : list string :=
  filter (fun q => negb (String.eqb p q)) l.

Definition set_fs (f : list string -> list string) : M unit :=
  modify (fun s => mkSt (f (fs s)) (uuid_n s) (trace s) (local_human_path s)
                        (local_garment_path s) (local_gradio_output_path s)
                        (local_gradio_masked_path s)).

Definition path_exists (p : string) : M bool := gets (fun s => fs_exists p (fs s)).

(** [uuid.uuid4()] *)
Definition uuid4 (w : world) : M string :=
  fun s => (mkSt (fs s) (S (uuid_n s)) (trace s) (local_human_path s)
                 (local_garment_path s) (local_gradio_output_path s)
                 (local_gradio_masked_path s), Ok (w_uuid w (uuid_n s))).

Definition set_local_human (p : option string) : M unit :=
  modify (fun s => mkSt (fs s) (uuid_n s) (trace s) p (local_garment_path s)
                        (local_gradio_output_path s) (local_gradio_masked_path s)).
Definition set_local_garment (p : option string) : M unit :=
  modify (fun s => mkSt (fs s) (uuid_n s) (trace s) (local_human_path s) p
                        (local_gradio_output_path s) (local_gradio_masked_path s)).
Definition set_local_output (p : option string) : M unit :=
  modify (fun s => mkSt (fs s) (uuid_n s) (trace s) (local_human_path s)
                        (local_garment_path s) p (local_gradio_masked_path s)).
Definition set_local_masked (p : option string) : M unit :=
  modify (fun s => mkSt (fs s) (uuid_n s) (trace s) (local_human_path s)
                        (local_garment_path s) (local_gradio_output_path s) p).

(** ** [download_image] (lines 42-55) *)

Definition UPLOAD_FOLDER : string := "temp_images".

(** [os.path.join(UPLOAD_FOLDER, filename)] for a relative [filename]. *)
Definition path_join (a b : string) : string := a ++ "/" ++ b.

Definition download_image (w : world) (url filename : string) : M (option string) :=
  emit (EvGet url) ;;
  let filepath := path_join UPLOAD_FOLDER filename in
  match w_download w url with
  | DlRequestFailed _ => ret None
  | DlOpenFailed e => raise e
  | DlStreamFailed _ => set_fs (fs_add filepath) ;; ret None
  | DlOk => set_fs (fs_add filepath) ;; ret (Some filepath)
  end.

(** ** [upload_to_supabase] (lines 57-98) *)

Definition NOT_INITIALIZED_MSG : string :=
  "Supabase client not initialized. Cannot upload files. Check backend logs for details.".

(** Lines 75-81: content type from the file name. *)
Definition content_type_for (filename : string) : string :=
  if endswith (lower filename) ".png" then "image/png"
  else if endswith (lower filename) ".jpeg" || endswith (lower filename) ".jpg" then "image/jpeg"
  else if endswith (lower filename) ".gif" then "image/gif"
  else "image/webp".

Definition upload_to_supabase (w : world) (file_path destination_folder : string) : M string :=
  match supabase w with
  | None => raise NOT_INITIALIZED_MSG
  | Some _ =>
      ex <- path_exists file_path ;;
      if negb ex then raise ("File not found for upload: " ++ file_path) else
      let filename := basename file_path in
      u <- uuid4 w ;;
      let unique_filename := u ++ "_" ++ filename in
      let storage_path := destination_folder ++ "/" ++ unique_filename in
      let content_type := content_type_for filename in
      let bucket := SUPABASE_BUCKET_NAME w in
      emit (EvUpload bucket storage_path content_type) ;;
      match w_upload w bucket storage_path with
      | Some e => raise e
      | None => emit (EvPublicUrl bucket storage_path) ;; ret (w_public_url w bucket storage_path)
      end
  end.

(** ** The handler [virtual_try_on] (lines 100-185) *)

Record response : Type := { status : nat; body : list (string * string) }.

(** [jsonify(d), code] *)
Definition jsonify (d : list (string * string)) (code : nat) : response :=
  {| status := code; body := d |}.

Definition MISSING_URL_MSG : string := "Missing human_image_url or garment_image_url".
Definition DOWNLOAD_FAILED_MSG : string :=
  "Failed to download one or more input images from provided URLs.".
Definition UNEXPECTED_FORMAT_MSG : string :=
  "Unexpected API response format from Gradio API. Expected a tuple of 2 local file paths.".

Definition attribute_error_msg (j : json) : string :=
  "'" ++ type_name j ++ "' object has no attribute 'get'".

(** [request.get_json()] *)
Definition get_json (w : world) : M json :=
  match w_body w with inl e => raise e | inr j => ret j end.

(** [data.get(k)] *)
Definition dict_get (data : json) (k : string) : M (option json) :=
  match data with
  | JObj kv => ret (assoc k kv)
  | j => raise (attribute_error_msg j)
  end.

(** [data.get(k, default)] *)
Definition dict_get_default (data : json) (k : string) (default : json) : M json :=
  match data with
  | JObj kv => ret (match assoc k kv with Some v => v | None => default end)
  | j => raise (attribute_error_msg j)
  end.

(** [os.path.basename] accepts only [str] among JSON values. *)
Definition as_path (o : option json) : M string :=
  match o with
  | Some (JStr s) => ret s
  | Some j => raise ("expected str, bytes or os.PathLike object, not " ++ type_name j)
  | None => raise "expected str, bytes or os.PathLike object, not NoneType"
  end.

Definition truthy_path (o : option string) : bool :=
  match o with Some p => truthy_str p | None => false end.

(** [Client("jallenjia/Change-Clothes-AI").predict(...)]: the files the
    client fetched locally appear in the file system. *)
Definition gradio_predict (w : world) (human garment : string) (desc : json) : M infer_result :=
  emit (EvPredict human garment desc) ;;
  match w_predict w human garment desc with
  | PredRaised e => raise e
  | PredReturned r created => set_fs (fun l => fold_left (fun acc p => fs_add p acc) created l) ;; ret r
  end.

(** The body of the [try] block, lines 108-167. *)
Definition try_body (w : world) : M response :=
  data <- get_json w ;;
  human_image_url <- dict_get data "human_image_url" ;;
  garment_image_url <- dict_get data "garment_image_url" ;;
  garment_description <- dict_get_default data "garment_description" (JStr "") ;;
  if negb (truthy_opt human_image_url) || negb (truthy_opt garment_image_url) then
    ret (jsonify [("error", MISSING_URL_MSG)] 400)
  else
  u1 <- uuid4 w ;;
  human_url <- as_path human_image_url ;;
  let human_image_filename := "human_input_" ++ u1 ++ "_" ++ split_q0 (basename human_url) in
  u2 <- uuid4 w ;;
  garment_url <- as_path garment_image_url ;;
  let garment_image_filename := "garment_input_" ++ u2 ++ "_" ++ split_q0 (basename garment_url) in
  lh <- download_image w human_url human_image_filename ;;
  set_local_human lh ;;
  lg <- download_image w garment_url garment_image_filename ;;
  set_local_garment lg ;;
  if negb (truthy_path lh) || negb (truthy_path lg) then raise DOWNLOAD_FAILED_MSG else
  match lh, lg with
  | Some hp, Some gp =>
      result <- gradio_predict w hp gp garment_description ;;
      match result with
      | RTuple [out; masked] =>
          set_local_output (Some out) ;;
          set_local_masked (Some masked) ;;
          processed_image_public_url <- upload_to_supabase w out "processed_images" ;;
          masked_image_public_url <- upload_to_supabase w masked "masked_images" ;;
          ret (jsonify [("output_url", processed_image_public_url);
                        ("masked_url", masked_image_public_url)] 200)
      | _ => ret (jsonify [("error", UNEXPECTED_FORMAT_MSG)] 500)
      end
  | _, _ => raise DOWNLOAD_FAILED_MSG
  end.

(** One line of the [finally] block: [if p and os.path.exists(p): os.remove(p)]. *)
Definition remove_if_present (w : world) (p : option string) : M unit :=
  match p with
  | Some q =>
      ex <- path_exists q ;;
      if truthy_str q && ex then
        emit (EvRemove q) ;;
        match w_remove_error w q with
        | Some e => raise e
        | None => set_fs (fs_del q)
        end
      else ret tt
  | None => ret tt
  end.

(** The [finally] block, lines 172-185. *)
Definition cleanup (w : world) : M unit :=
  h <- gets local_human_path ;;
  g <- gets local_garment_path ;;
  o <- gets local_gradio_output_path ;;
  m <- gets local_gradio_masked_path ;;
  remove_if_present w h ;;
  remove_if_present w g ;;
  remove_if_present w o ;;
  remove_if_present w m.

Inductive outcome : Type :=
| Returned (r : response)   (* the value returned by the handler *)
| Raised (e : string).      (* an exception escaping the [finally] block *)

Definition init_state (w : world) : st := mkSt (w_fs w) 0 [] None None None None.

(** [except Exception as e: return jsonify({"error": str(e)}), 500] *)
Definition handle_exception (r : res response) : response :=
  match r with
  | Ok resp => resp
  | Exc e => jsonify [("error", e)] 500
  end.

Definition virtual_try_on (w : world) : st * outcome :=
  let '(s1, r) := try_body w (init_state w) in
  let primary := handle_exception r in
  let '(s2, c) := cleanup w s1 in
  (s2, match c with Ok _ => Returned primary | Exc e => Raised e end).

(** The response computed by the [try]/[except] part, before [finally]. *)
Definition primary_response (w : world) : response :=
  handle_exception (snd (try_body w (init_state w))).

(** The request-local state when the [finally] block starts. *)
Definition state_before_cleanup (w : world) : st := fst (try_body w (init_state w)).

Definition recorded (s : st) : list (option string) :=
  [local_human_path s; local_garment_path s; local_gradio_output_path s; local_gradio_masked_path s].

(** The [finally] block read as a list of removals. *)
Fixpoint remove_each (w : world) (ps : list (option string)) : M unit :=
  match ps with
  | [] => ret tt
  | p :: r => remove_if_present w p ;; remove_each w r
  end.

(** The outcome of the handler, given the response [resp] of its
    [try]/[except] part: [resp] itself when no removal of a recorded
    scratch path raises; otherwise the exception of a failing removal of a
    recorded path; and whenever the [finally] block calls [os.remove] on a
    path whose removal raises, that exception escapes. *)
Definition responds_unless_cleanup_raises (w : world) (resp : response) : Prop :=
  let s1 := state_before_cleanup w in
  let o := snd (virtual_try_on w) in
  ((forall q, In (Some q) (recorded s1) -> w_remove_error w q = None) -> o = Returned resp) /\
  (o = Returned resp \/
   exists q e, In (Some q) (recorded s1) /\ w_remove_error w q = Some e /\ o = Raised e) /\
  (forall q e, In (EvRemove q) (trace (fst (virtual_try_on w))) -> w_remove_error w q = Some e ->
     o = Raised e).

(** ** Names used in the statements *)

(** [garment_description = data.get('garment_description', '')] for an object body. *)
Definition description (kv : list (string * json)) : json :=
  match assoc "garment_description" kv with Some v => v | None => JStr "" end.

(** The scratch path of the human image: the first [uuid4()] of the request. *)
Definition human_input_path (w : world) (hu : string) : string :=
  path_join UPLOAD_FOLDER ("human_input_" ++ w_uuid w 0 ++ "_" ++ split_q0 (basename hu)).

(** The scratch path of the garment image: the second [uuid4()] of the request. *)
Definition garment_input_path (w : world) (gu : string) : string :=
  path_join UPLOAD_FOLDER ("garment_input_" ++ w_uuid w 1 ++ "_" ++ split_q0 (basename gu)).

(** The extension of a name read as the text from its last dot on. *)
Fixpoint last_ext (s : string) (acc : option string) : option string :=
  match s with
  | EmptyString => acc
  | String c r =>
      if Ascii.eqb c "." then last_ext r (Some ".")
      else last_ext r (option_map (fun a => a ++ String c "") acc)
  end.

Definition extension (s : string) : string :=
  match last_ext s None with Some e => e | None => "" end.

(** The content-type table of the specification, read literally: the
    extension looked up exactly in the four-row table. *)
Definition spec_content_type (filename : string) : string :=
  let e := extension filename in
  if String.eqb e ".png" then "image/png"
  else if String.eqb e ".jpeg" || String.eqb e ".jpg" then "image/jpeg"
  else if String.eqb e ".gif" then "image/gif"
  else "image/webp".

(** A download that fails with a [requests] exception, which
    [download_image] catches. *)
Definition download_fails (d : dl_outcome) : bool :=
  match d with DlRequestFailed _ | DlStreamFailed _ => true | _ => false end.

(** A download whose [open] raises, which [download_image] lets through. *)
Definition download_raises (d : dl_outcome) : bool :=
  match d with DlOpenFailed _ => true | _ => false end.

(** The key [upload_to_supabase] builds from the [n]-th [uuid4()] value. *)
Definition object_key (w : world) (n : nat) (destination_folder file_path : string) : string :=
  destination_folder ++ "/" ++ (w_uuid w n ++ "_" ++ basename file_path).

(** [os.path.exists(p)] right after the inference call: [p] was on disk
    before the request, is one of the two downloaded inputs, or is a file
    the inference call made available. *)
Definition exists_after_inference (w : world) (hu gu : string) (created : list string)
  (p : string) : Prop :=
  In p (w_fs w) \/ p = human_input_path w hu \/ p = garment_input_path w gu \/ In p created.

(** The same world with another request body. *)
Definition with_body (w : world) (b : string + json) : world :=
  {| w_env := w_env w; w_create_client_fails := w_create_client_fails w; w_body := b;
     w_uuid := w_uuid w; w_download := w_download w; w_predict := w_predict w;
     w_upload := w_upload w; w_public_url := w_public_url w;
     w_remove_error := w_remove_error w; w_fs := w_fs w |}.

(** [c not in s] *)
Fixpoint no_char (c : ascii) (s : string) : bool :=
  match s with
  | EmptyString => true
  | String x r => negb (Ascii.eqb x c) && no_char c r
  end.

Definition is_upload (e : event) : bool :=
  match e with EvUpload _ _ _ => true | _ => false end.

(** The three forms of response [virtual_try_on] returns. *)
Definition response_shape_ok (r : response) : Prop :=
  (status r = 200 /\ map fst (body r) = ["output_url"; "masked_url"]) \/
  (status r = 400 /\ body r = [("error", MISSING_URL_MSG)]) \/
  (status r = 500 /\ map fst (body r) = ["error"]).

(** A small deployment used by the examples below. *)
Definition env_ok (k : string) : option string :=
  if String.eqb k "SUPABASE_URL" then Some "https://x.supabase.co"
  else if String.eqb k "SUPABASE_KEY" then Some "service-key" else None.

Definition uuids (n : nat) : string :=
  match n with 0 => "u0" | 1 => "u1" | 2 => "u2" | _ => "u3" end.

Definition req_ok : list (string * json) :=
  [("human_image_url", JStr "http://h/a.jpg"); ("garment_image_url", JStr "http://g/b.jpg");
   ("garment_description", JStr "blue shirt")].

Definition mk_world (env : string -> option string) (b : string + json)
  (dl : string -> dl_outcome) (pr : predict_outcome) (rm : string -> option string) : world :=
  {| w_env := env; w_create_client_fails := false; w_body := b; w_uuid := uuids;
     w_download := dl; w_predict := fun _ _ _ => pr; w_upload := fun _ _ => None;
     w_public_url := fun bk k => "https://x.supabase.co/" ++ bk ++ "/" ++ k;
     w_remove_error := rm; w_fs := [] |}.

Definition gradio_pair : predict_outcome :=
  PredReturned (RTuple ["/tmp/gradio/out.webp"; "/tmp/gradio/mask.png"])
               ["/tmp/gradio/out.webp"; "/tmp/gradio/mask.png"].

(** * Properties *)

(** ** Generic facts about the helpers *)

Lemma is_prefix_app : forall p q, is_prefix p (p ++ q) = true.
Proof.
  induction p as [|a p IH]; intros q; simpl; [reflexivity|].
  rewrite IH, Ascii.eqb_refl; reflexivity.
Qed.

Lemma is_prefix_common : forall p q l,
  is_prefix p l = true -> is_prefix q l = true -> length q <= length p -> is_prefix q p = true.
Proof.
  induction p as [|a p IH]; intros q l Hp Hq Hlen.
  - destruct q; [reflexivity | simpl in Hlen; lia].
  - destruct q as [|c q]; [reflexivity|].
    destruct l as [|b l]; [discriminate|].
    simpl in Hp, Hq |- *.
    apply andb_true_iff in Hp as [Hab Hp]; apply andb_true_iff in Hq as [Hcb Hq].
    apply Ascii.eqb_eq in Hab; apply Ascii.eqb_eq in Hcb; subst.
    rewrite Ascii.eqb_refl; simpl; apply (IH q l); auto; simpl in Hlen; lia.
Qed.

Lemma list_ascii_of_string_app : forall a b,
  list_ascii_of_string (a ++ b) = (list_ascii_of_string a ++ list_ascii_of_string b)%list.
Proof. induction a as [|c a IH]; intros b; simpl; [reflexivity | rewrite IH; reflexivity]. Qed.

Lemma endswith_app : forall a b, endswith (a ++ b) b = true.
Proof.
  intros a b; unfold endswith; rewrite list_ascii_of_string_app, rev_app_distr.
  apply is_prefix_app.
Qed.

Lemma endswith_common : forall s a b,
  endswith s a = true -> endswith s b = true ->
  length (list_ascii_of_string b) <= length (list_ascii_of_string a) ->
  is_prefix (rev (list_ascii_of_string b)) (rev (list_ascii_of_string a)) = true.
Proof.
  unfold endswith; intros s a b Ha Hb Hlen.
  apply (is_prefix_common _ _ _ Ha Hb); rewrite !length_rev; exact Hlen.
Qed.

Ltac suffix_clash H1 H2 :=
  exfalso;
  first [ let X := fresh "Hclash" in
          pose proof (endswith_common _ _ _ H1 H2 ltac:(simpl; lia)) as X;
          vm_compute in X; discriminate X
        | let X := fresh "Hclash" in
          pose proof (endswith_common _ _ _ H2 H1 ltac:(simpl; lia)) as X;
          vm_compute in X; discriminate X ].

(** ** C6: content type of an upload *)

(** C6 (amended): the content type is chosen by a case-insensitive suffix
    match on the file's base name: a name ending in [.png] (in any letter
    case) gets image/png, one ending in [.jpeg] or [.jpg] gets image/jpeg,
    one ending in [.gif] gets image/gif, and every other name gets
    image/webp; the four suffix classes are disjoint. *)
Theorem content_type_for_table : forall filename : string,
  let l := lower filename in
  (content_type_for filename = "image/png" <-> endswith l ".png" = true) /\
  (content_type_for filename = "image/jpeg" <->
     endswith l ".jpeg" = true \/ endswith l ".jpg" = true) /\
  (content_type_for filename = "image/gif" <-> endswith l ".gif" = true) /\
  (content_type_for filename = "image/webp" <->
     endswith l ".png" = false /\ endswith l ".jpeg" = false /\
     endswith l ".jpg" = false /\ endswith l ".gif" = false).
Proof.
  intros filename l; unfold content_type_for; fold l.
  destruct (endswith l ".png") eqn:Hpng;
  destruct (endswith l ".jpeg") eqn:Hjpeg;
  destruct (endswith l ".jpg") eqn:Hjpg;
  destruct (endswith l ".gif") eqn:Hgif; simpl;
  try suffix_clash Hpng Hjpeg; try suffix_clash Hpng Hjpg; try suffix_clash Hpng Hgif;
  try suffix_clash Hjpeg Hjpg; try suffix_clash Hjpeg Hgif; try suffix_clash Hjpg Hgif;
  repeat split; intros;
  repeat match goal with H : _ /\ _ |- _ => destruct H | H : _ \/ _ |- _ => destruct H end;
  try discriminate; try tauto; try reflexivity.
Qed.

(** C6 counterexample: [x.PNG] has extension [.PNG], which is not in the
    table, yet the upload is labelled image/png rather than image/webp. *)
Lemma content_type_upper_case_png :
  content_type_for "x.PNG" = "image/png" /\ spec_content_type "x.PNG" = "image/webp".
Proof. split; vm_compute; reflexivity. Qed.

Lemma is_prefix_app_r : forall p l x, is_prefix p l = true -> is_prefix p (l ++ x) = true.
Proof.
  induction p as [|a p IH]; intros l x H; [reflexivity|].
  destruct l as [|b l]; [discriminate|].
  simpl in H |- *; apply andb_true_iff in H as [H1 H2]; rewrite H1, (IH _ _ H2); reflexivity.
Qed.

Lemma endswith_prepend : forall c a b, endswith a b = true -> endswith (c ++ a) b = true.
Proof.
  unfold endswith; intros c a b H.
  rewrite list_ascii_of_string_app, rev_app_distr; apply is_prefix_app_r; exact H.
Qed.

Lemma endswith_cons : forall x a b, endswith a b = true -> endswith (String x a) b = true.
Proof. intros x a b H; exact (endswith_prepend (String x "") a b H). Qed.

Ltac suffix_of_key :=
  repeat first [ exact (endswith_app "" _) | apply endswith_prepend | apply endswith_cons ].

(** ** C4: missing URL fields *)

(** C4: when the JSON object lacks [human_image_url] or [garment_image_url],
    or holds an empty (more generally, falsy) value there, the handler
    returns 400 with exactly [{"error": "Missing human_image_url or
    garment_image_url"}]; the request state is left as it started: nothing
    was downloaded, no inference was invoked and nothing was uploaded (the
    event trace is empty and the file system unchanged). *)
Theorem missing_url_400 : forall (w : world) (kv : list (string * json)),
  w_body w = inr (JObj kv) ->
  truthy_opt (assoc "human_image_url" kv) = false \/
  truthy_opt (assoc "garment_image_url" kv) = false ->
  virtual_try_on w = (init_state w, Returned (jsonify [("error", MISSING_URL_MSG)] 400)).
Proof.
  intros w kv Hb Hm.
  unfold virtual_try_on, try_body, get_json; rewrite Hb; cbn.
  destruct Hm as [H | H]; rewrite H; [reflexivity|].
  rewrite orb_true_r; reflexivity.
Qed.

Lemma missing_url_400_witness :
  let w := mk_world env_ok (inr (JObj [("garment_image_url", JStr "http://g/b.jpg")]))
             (fun _ => DlOk) gradio_pair (fun _ => None) in
  virtual_try_on w = (init_state w, Returned (jsonify [("error", MISSING_URL_MSG)] 400)).
Proof.
  intros w. apply (missing_url_400 w [("garment_image_url", JStr "http://g/b.jpg")]).
  - reflexivity.
  - left; reflexivity.
Defined.

(** ** C9: bodies that are not JSON objects *)

(** C9: when [request.get_json()] raises (absent or malformed body) the
    handler answers 500 with that exception's message; when it returns a
    JSON value that is not an object (null, a list, a string, ...), the
    [data.get] call raises [AttributeError] and the handler answers 500 with
    its message.  In neither case is the 400 check reached, and nothing else
    happens during the request. *)
Theorem non_object_body_500 : forall w : world,
  match w_body w with
  | inl e => virtual_try_on w = (init_state w, Returned (jsonify [("error", e)] 500))
  | inr (JObj _) => True
  | inr j => virtual_try_on w =
               (init_state w, Returned (jsonify [("error", attribute_error_msg j)] 500))
  end.
Proof.
  intros w; unfold virtual_try_on, try_body, get_json.
  destruct (w_body w) as [e | [| | | | |]]; first [exact I | reflexivity].
Qed.

(** ** C8: object keys of uploads *)

(** C8: every upload issued by [upload_to_supabase file_path folder] puts
    the object under the key [folder/<uuid4>_<basename file_path>], where
    the middle part is the next [uuid.uuid4()] value; the key ends with the
    file's base name, the bucket is the configured one, the content type is
    [content_type_for] of the base name, and the URL returned is the public
    URL of that same key. *)
Theorem upload_key_form : forall w file_path destination_folder s s' r bucket key ct,
  upload_to_supabase w file_path destination_folder s = (s', r) ->
  In (EvUpload bucket key ct) (trace s') ->
  ~ In (EvUpload bucket key ct) (trace s) ->
  key = destination_folder ++ "/" ++ (w_uuid w (uuid_n s) ++ "_" ++ basename file_path) /\
  endswith key (basename file_path) = true /\
  ct = content_type_for (basename file_path) /\
  bucket = SUPABASE_BUCKET_NAME w /\
  (forall url, r = Ok url -> url = w_public_url w bucket key).
Proof.
  intros w fp folder s s' r bucket key ct Hup Hin Hnew.
  unfold upload_to_supabase in Hup.
  destruct (supabase w) as [c|]; [|cbn in Hup; inversion Hup; subst; contradiction].
  cbn in Hup.
  destruct (fs_exists fp (fs s)); cbn in Hup; [|inversion Hup; subst; contradiction].
  destruct (w_upload w _ _) as [e|] eqn:Hu; cbn in Hup; inversion Hup; subst; clear Hup;
    cbn in Hin; rewrite ?in_app_iff in Hin; cbn in Hin;
    repeat match goal with H : _ \/ _ |- _ => destruct H as [H|H] end;
    try contradiction; try discriminate; inversion Hin; subst;
    (split; [reflexivity | split; [suffix_of_key | split; [reflexivity | split; [reflexivity|]]]]).
  - discriminate.
  - intros url Hurl; inversion Hurl; reflexivity.
Qed.



Lemma upload_key_form_witness :
  let w := mk_world env_ok (inr (JObj req_ok)) (fun _ => DlOk) gradio_pair (fun _ => None) in
  let s := mkSt ["/tmp/gradio/out.webp"] 2 [] None None None None in
  let r := upload_to_supabase w "/tmp/gradio/out.webp" "processed_images" s in
  "processed_images/u2_out.webp" =
    "processed_images" ++ "/" ++ (w_uuid w (uuid_n s) ++ "_" ++ basename "/tmp/gradio/out.webp") /\
  endswith "processed_images/u2_out.webp" (basename "/tmp/gradio/out.webp") = true /\
  "image/webp" = content_type_for (basename "/tmp/gradio/out.webp") /\
  "virtual-try-extracted" = SUPABASE_BUCKET_NAME w /\
  (forall url, snd r = Ok url ->
     url = w_public_url w "virtual-try-extracted" "processed_images/u2_out.webp").
Proof.
  intros w s r.
  apply (upload_key_form w "/tmp/gradio/out.webp" "processed_images" s (fst r) (snd r)).
  - unfold r; destruct (upload_to_supabase _ _ _ _); reflexivity.
  - vm_compute; auto.
  - vm_compute; intros [].
Defined.

(** ** The [finally] block *)

Lemma fs_exists_iff : forall p l, fs_exists p l = true <-> In p l.
Proof.
  intros p l; unfold fs_exists; rewrite existsb_exists; split.
  - intros [x [Hx He]]; apply String.eqb_eq in He; subst; exact Hx.
  - intros H; exists p; split; [exact H | apply String.eqb_refl].
Qed.

Lemma fs_del_iff : forall p q l, In q (fs_del p l) <-> In q l /\ q <> p.
Proof.
  intros p q l; unfold fs_del; rewrite filter_In; split.
  - intros [H1 H2]; split; [exact H1|]; intros ->; rewrite String.eqb_refl in H2; discriminate.
  - intros [H1 H2]; split; [exact H1|]; destruct (String.eqb p q) eqn:E; [|reflexivity].
    apply String.eqb_eq in E; congruence.
Qed.

Lemma truthy_str_true : forall q, q <> "" -> truthy_str q = true.
Proof.
  intros q H; unfold truthy_str; destruct (String.eqb q "") eqn:E; [|reflexivity].
  apply String.eqb_eq in E; contradiction.
Qed.

Lemma truthy_path_join : forall x, truthy_str (path_join UPLOAD_FOLDER x) = true.
Proof. reflexivity. Qed.

Lemma fs_add_keeps : forall x p l, In x l -> In x (fs_add p l).
Proof.
  intros x p l H; unfold fs_add; destruct (fs_exists p l); [exact H | apply in_or_app; left; exact H].
Qed.

Lemma fs_add_new : forall p l, In p (fs_add p l).
Proof.
  intros p l; unfold fs_add; destruct (fs_exists p l) eqn:E.
  - apply fs_exists_iff, E.
  - apply in_or_app; right; left; reflexivity.
Qed.

Lemma fold_fs_add_keeps : forall created x l,
  In x l -> In x (fold_left (fun acc p => fs_add p acc) created l).
Proof.
  induction created as [|p created IH]; intros x l H; [exact H|].
  cbn; apply IH, fs_add_keeps, H.
Qed.

Lemma fs_exists_created : forall created x l,
  In x created -> fs_exists x (fold_left (fun acc p => fs_add p acc) created l) = true.
Proof.
  induction created as [|p created IH]; intros x l H; [destruct H|].
  apply fs_exists_iff; cbn [fold_left]; destruct H as [-> | H].
  - apply fold_fs_add_keeps, fs_add_new.
  - apply fs_exists_iff, IH, H.
Qed.

Definition is_remove (e : event) : Prop := match e with EvRemove _ => True | _ => False end.

Lemma remove_if_present_spec : forall w p s,
  let '(s', r) := remove_if_present w p s in
  (exists nw, trace s' = (trace s ++ nw)%list /\ Forall is_remove nw) /\
  recorded s' = recorded s /\
  incl (fs s') (fs s) /\
  (forall q, In q (fs s) -> p <> Some q -> In q (fs s')) /\
  (r = Ok tt -> forall q, p = Some q -> q <> "" -> ~ In q (fs s')) /\
  (forall e, r = Exc e -> exists q, p = Some q /\ w_remove_error w q = Some e) /\
  ((forall q, p = Some q -> q <> "" -> In q (fs s) -> w_remove_error w q = None) -> r = Ok tt).
Proof.
  intros w p s; unfold remove_if_present.
  destruct p as [q|]; cbn.
  - destruct (truthy_str q && fs_exists q (fs s)) eqn:Hc; cbn.
    + apply andb_true_iff in Hc as [Ht Hex].
      destruct (w_remove_error w q) as [e|] eqn:He; cbn.
      * split; [exists [EvRemove q]; split; [reflexivity | repeat constructor]|].
        split; [reflexivity|]. split; [apply incl_refl|].
        split; [auto|]. split; [discriminate|].
        split; [intros e' He'; inversion He'; subst; eauto|].
        intros Hno; rewrite (Hno q eq_refl) in He; [discriminate| |apply fs_exists_iff; exact Hex].
        intros ->; discriminate Ht.
      * split; [exists [EvRemove q]; split; [reflexivity | repeat constructor]|].
        split; [reflexivity|].
        split; [intros x Hx; apply fs_del_iff in Hx; tauto|].
        split; [intros x Hx Hne; apply fs_del_iff; split; [exact Hx|]; intros ->; auto|].
        split; [intros _ x Hx _ Hin; inversion Hx; subst; apply fs_del_iff in Hin; tauto|].
        split; [discriminate|auto].
    + split; [exists []; rewrite app_nil_r; split; [reflexivity | constructor]|].
      split; [reflexivity|]. split; [apply incl_refl|]. split; [auto|].
      split; [|split; [discriminate|auto]].
      intros _ x Hx Hne Hin; inversion Hx; subst.
      apply truthy_str_true in Hne; rewrite Hne in Hc; simpl in Hc.
      apply fs_exists_iff in Hin; congruence.
  - split; [exists []; rewrite app_nil_r; split; [reflexivity | constructor]|].
    split; [reflexivity|]. split; [apply incl_refl|]. split; [auto|].
    split; [intros _ x Hx; discriminate Hx|]. split; [discriminate|auto].
Qed.

Lemma remove_each_spec : forall w ps s,
  let '(s', r) := remove_each w ps s in
  (exists nw, trace s' = (trace s ++ nw)%list /\ Forall is_remove nw) /\
  recorded s' = recorded s /\
  incl (fs s') (fs s) /\
  (forall q, In q (fs s) -> ~ In (Some q) ps -> In q (fs s')) /\
  ((forall q, In (Some q) ps -> q <> "" -> In q (fs s) -> w_remove_error w q = None) ->
     r = Ok tt /\ forall q, In (Some q) ps -> q <> "" -> ~ In q (fs s')) /\
  (forall e, r = Exc e -> exists q, In (Some q) ps /\ w_remove_error w q = Some e).
Proof.
  intros w ps; induction ps as [|p ps IH]; intros s.
  - cbn. split; [exists []; rewrite app_nil_r; split; [reflexivity | constructor]|].
    split; [reflexivity|]. split; [apply incl_refl|]. split; [auto|].
    split; [intros _; split; [reflexivity | intros q []]|]. intros e He; discriminate He.
  - cbn [remove_each]; unfold bind at 1.
    pose proof (remove_if_present_spec w p s) as H1.
    destruct (remove_if_present w p s) as [s1 r1].
    destruct H1 as [[nw1 [Ht1 Hf1]] [Hrec1 [Hincl1 [Hkeep1 [Hok1 [Hexc1 Hno1]]]]]].
    destruct r1 as [[]|e1].
    + specialize (IH s1).
      destruct (remove_each w ps s1) as [s2 r2].
      destruct IH as [[nw2 [Ht2 Hf2]] [Hrec2 [Hincl2 [Hkeep2 [Hok2 Hexc2]]]]].
      split; [exists (nw1 ++ nw2)%list; rewrite Ht2, Ht1, app_assoc; split;
              [reflexivity | apply Forall_app; auto]|].
      split; [congruence|].
      split; [intros x Hx; apply Hincl1, Hincl2, Hx|].
      split.
      { intros q Hq Hn; apply Hkeep2.
        - apply Hkeep1; [exact Hq|]. intros Hp; apply Hn; left; congruence.
        - intros Hin; apply Hn; right; exact Hin. }
      split.
      { intros Hno.
        destruct Hok2 as [Hr2 Habs2].
        { intros q Hq Hne Hin; apply Hno; [right; exact Hq | exact Hne | apply Hincl1, Hin]. }
        split; [exact Hr2|].
        intros q [Hq | Hq] Hne Hin.
        - apply (Hok1 eq_refl q Hq Hne), Hincl2, Hin.
        - exact (Habs2 q Hq Hne Hin). }
      intros e He; destruct (Hexc2 e He) as [q [Hq Hqe]]; exists q; split; [right|]; auto.
    + split; [exists nw1; split; auto|].
      split; [exact Hrec1|]. split; [exact Hincl1|].
      split; [intros q Hq Hn; apply Hkeep1; [exact Hq | intros Hp; apply Hn; left; congruence]|].
      split.
      { intros Hno; exfalso.
        assert (Hc : Exc e1 = Ok tt :> res unit).
        { apply Hno1; intros q Hq Hne Hin; apply Hno; [left; congruence | exact Hne | exact Hin]. }
        discriminate Hc. }
      intros e He; inversion He; subst.
      destruct (Hexc1 e eq_refl) as [q [Hq Hqe]]; exists q; split; [left; congruence | exact Hqe].
Qed.

Lemma bind_ret_unit : forall (m : M unit) s, (m ;; ret tt) s = m s.
Proof. intros m s; unfold bind, ret; destruct (m s) as [s' [[]|e]]; reflexivity. Qed.

Lemma bind_ext : forall {A B} (m : M A) (f g : A -> M B) s,
  (forall a s', f a s' = g a s') -> bind m f s = bind m g s.
Proof. intros A B m f g s H; unfold bind; destruct (m s) as [s' [a|e]]; auto. Qed.

Lemma bind_gets : forall {A B} (f : st -> A) (k : A -> M B) s, bind (gets f) k s = k (f s) s.
Proof. reflexivity. Qed.

Lemma cleanup_remove_each : forall w s, cleanup w s = remove_each w (recorded s) s.
Proof.
  intros w s; unfold cleanup; rewrite !bind_gets; cbn [remove_each recorded].
  apply bind_ext; intros [] s1; apply bind_ext; intros [] s2; apply bind_ext; intros [] s3.
  symmetry; apply bind_ret_unit.
Qed.

Lemma virtual_try_on_unfold : forall w,
  virtual_try_on w =
  (fst (cleanup w (state_before_cleanup w)),
   match snd (cleanup w (state_before_cleanup w)) with
   | Ok _ => Returned (primary_response w)
   | Exc e => Raised e
   end).
Proof.
  intros w; unfold virtual_try_on, state_before_cleanup, primary_response.
  destruct (try_body w (init_state w)) as [s1 r]; cbn [fst snd].
  destruct (cleanup w s1) as [s2 c]; reflexivity.
Qed.

(** The [finally] block only appends removal events, and the handler's
    outcome is either the primary response or the exception of a failed
    removal of a recorded path. *)
Lemma cleanup_outcome : forall w,
  (exists nw, trace (fst (virtual_try_on w)) = (trace (state_before_cleanup w) ++ nw)%list /\
              Forall is_remove nw) /\
  (snd (virtual_try_on w) = Returned (primary_response w) \/
   exists q e, In (Some q) (recorded (state_before_cleanup w)) /\
               w_remove_error w q = Some e /\ snd (virtual_try_on w) = Raised e).
Proof.
  intros w; rewrite virtual_try_on_unfold, cleanup_remove_each; cbn [fst snd].
  pose proof (remove_each_spec w (recorded (state_before_cleanup w)) (state_before_cleanup w)) as H.
  destruct (remove_each w _ _) as [s2 [[]|e]]; cbn [fst snd];
    destruct H as [Ht [_ [_ [_ [_ Hexc]]]]]; split; auto.
  right; destruct (Hexc e eq_refl) as [q [Hq He]]; exists q, e; auto.
Qed.

Ltac crunch_all :=
  cbv beta iota zeta delta [bind ret raise gets modify emit uuid4 path_exists negb app orb andb
    set_local_output set_local_masked set_local_human set_local_garment set_fs
    fs uuid_n trace local_human_path local_garment_path
    local_gradio_output_path local_gradio_masked_path
    dict_get dict_get_default as_path truthy_opt truthy truthy_path
    download_image gradio_predict upload_to_supabase init_state].

Ltac brute :=
  repeat (match goal with
          | |- context [match ?x with _ => _ end] =>
              lazymatch type of x with
              | prod _ _ => fail
              | st => fail
              | res _ => fail
              | _ => destruct x
              end
          end; crunch_all).

(** The try/except part never removes a file. *)
Lemma try_body_no_remove : forall w q, ~ In (EvRemove q) (trace (state_before_cleanup w)).
Proof.
  intros w q; unfold state_before_cleanup, try_body, get_json; crunch_all; brute.
  all: cbn; intros Hin; repeat destruct Hin as [Hin | Hin]; discriminate || contradiction.
Qed.

(** One line of the [finally] block either does nothing observable, or
    removes a present non-empty path after logging it, and then either
    succeeds or raises the removal's error with the file still there. *)
Lemma remove_if_present_step : forall w p s,
  let '(s', r) := remove_if_present w p s in
  (trace s' = trace s /\ fs s' = fs s /\ r = Ok tt /\
   forall q, p = Some q -> q <> "" -> ~ In q (fs s)) \/
  (exists q, p = Some q /\ q <> "" /\ In q (fs s) /\ trace s' = (trace s ++ [EvRemove q])%list /\
     ((w_remove_error w q = None /\ r = Ok tt /\ fs s' = fs_del q (fs s)) \/
      (exists e, w_remove_error w q = Some e /\ r = Exc e /\ fs s' = fs s))).
Proof.
  intros w p s; unfold remove_if_present.
  destruct p as [q|]; cbn.
  - destruct (truthy_str q && fs_exists q (fs s)) eqn:Hc; cbn.
    + apply andb_true_iff in Hc as [Ht Hex]; apply fs_exists_iff in Hex.
      assert (Hne : q <> "") by (intros ->; discriminate Ht).
      destruct (w_remove_error w q) as [e|] eqn:He; cbn;
        right; exists q; (split; [reflexivity|]); (split; [exact Hne|]); (split; [exact Hex|]).
      * split; [reflexivity|]; right; exists e; auto.
      * split; [reflexivity|]; left; auto.
    + left; split; [reflexivity|]; split; [reflexivity|]; split; [reflexivity|].
      intros x Hx Hne Hin; inversion Hx; subst.
      apply truthy_str_true in Hne; apply fs_exists_iff in Hin; rewrite Hne, Hin in Hc.
      discriminate Hc.
  - left; split; [reflexivity|]; split; [reflexivity|]; split; [reflexivity|].
    intros x Hx; discriminate Hx.
Qed.

(** A removal that the [finally] block performs and that raises ends it
    with that exception. *)
Lemma remove_each_escape : forall w ps s q e,
  let '(s', r) := remove_each w ps s in
  In (EvRemove q) (trace s') -> ~ In (EvRemove q) (trace s) -> w_remove_error w q = Some e ->
  r = Exc e.
Proof.
  intros w ps; induction ps as [|p ps IH]; intros s q e.
  - cbn; intros Hin Hn; contradiction.
  - cbn [remove_each]; unfold bind at 1.
    pose proof (remove_if_present_step w p s) as H1.
    destruct (remove_if_present w p s) as [s1 r1].
    destruct H1 as [[Ht [_ [-> _]]] | [q0 [_ [_ [_ [Ht [[Hn0 [-> _]] | [e0 [He0 [-> _]]]]]]]]]].
    + specialize (IH s1 q e); destruct (remove_each w ps s1) as [s2 r2].
      intros Hin Hn He; apply IH; [exact Hin | rewrite Ht; exact Hn | exact He].
    + specialize (IH s1 q e); destruct (remove_each w ps s1) as [s2 r2].
      intros Hin Hn He; apply IH; [exact Hin | | exact He].
      rewrite Ht; intros Hin1; apply in_app_or in Hin1 as [Hin1 | [Hq | []]]; [contradiction|].
      inversion Hq; subst; congruence.
    + intros Hin Hn He; rewrite Ht in Hin.
      apply in_app_or in Hin as [Hin | [Hq | []]]; [contradiction|].
      inversion Hq; subst; congruence.
Qed.


Lemma removal_error_escapes : forall w q e,
  In (EvRemove q) (trace (fst (virtual_try_on w))) -> w_remove_error w q = Some e ->
  snd (virtual_try_on w) = Raised e.
Proof.
  intros w q e; rewrite virtual_try_on_unfold, cleanup_remove_each; cbn [fst snd].
  pose proof (remove_each_escape w (recorded (state_before_cleanup w)) (state_before_cleanup w) q e) as H.
  destruct (remove_each w _ _) as [s2 r]; cbn [fst snd].
  intros Hin He; rewrite (H Hin (try_body_no_remove w q) He); reflexivity.
Qed.

Lemma no_removal_error_returns : forall w,
  (forall q, In (Some q) (recorded (state_before_cleanup w)) -> w_remove_error w q = None) ->
  snd (virtual_try_on w) = Returned (primary_response w).
Proof.
  intros w Hno; rewrite virtual_try_on_unfold, cleanup_remove_each; cbn [fst snd].
  pose proof (remove_each_spec w (recorded (state_before_cleanup w)) (state_before_cleanup w)) as H.
  destruct (remove_each w _ _) as [s2 r]; cbn [fst snd].
  destruct H as [_ [_ [_ [_ [Hok _]]]]].
  destruct (Hok (fun q Hq _ _ => Hno q Hq)) as [-> _]; reflexivity.
Qed.

Lemma outcome_of_primary : forall w resp,
  primary_response w = resp -> responds_unless_cleanup_raises w resp.
Proof.
  intros w resp Hprim; unfold responds_unless_cleanup_raises; subst resp.
  split; [exact (no_removal_error_returns w)|].
  split; [|exact (removal_error_escapes w)].
  destruct (cleanup_outcome w) as [_ Ho]; exact Ho.
Qed.

(** ** C1: clean-up of scratch files *)



Ltac run := cbn - [append path_join UPLOAD_FOLDER fs_add fs_exists SUPABASE_BUCKET_NAME
                    content_type_for supabase basename].

Ltac crunch :=
  cbv beta iota zeta delta [bind ret raise gets modify emit uuid4 path_exists negb app
    set_local_output set_local_masked fs uuid_n trace local_human_path local_garment_path
    local_gradio_output_path local_gradio_masked_path].

(** Drives [try_body] through validation and the two downloads, given the
    fields and the download outcomes. *)
Ltac run_to_predict Hb Hh Hg Hhne Hgne :=
  apply truthy_str_true in Hhne, Hgne;
  unfold try_body, get_json; rewrite Hb; run; rewrite Hh, Hg; run; rewrite Hhne, Hgne; run;
  unfold download_image.

Lemma no_upload_after_cleanup : forall w,
  (forall b k ct, ~ In (EvUpload b k ct) (trace (state_before_cleanup w))) ->
  forall b k ct, ~ In (EvUpload b k ct) (trace (fst (virtual_try_on w))).
Proof.
  intros w H b k ct Hin.
  destruct (cleanup_outcome w) as [[nw [Ht Hf]] _]; rewrite Ht in Hin.
  apply in_app_or in Hin as [Hin | Hin]; [exact (H b k ct Hin)|].
  rewrite Forall_forall in Hf; exact (Hf _ Hin).
Qed.

Lemma run_primary : forall w s1 r,
  try_body w (init_state w) = (s1, Ok r) ->
  primary_response w = r /\ state_before_cleanup w = s1.
Proof.
  intros w s1 r H; unfold primary_response, state_before_cleanup; rewrite H; split; reflexivity.
Qed.

Lemma run_primary_exc : forall w s1 e,
  try_body w (init_state w) = (s1, Exc e) ->
  primary_response w = jsonify [("error", e)] 500 /\ state_before_cleanup w = s1.
Proof.
  intros w s1 e H; unfold primary_response, state_before_cleanup; rewrite H; split; reflexivity.
Qed.

(** ** C2: unexpected shape of the inference result *)

(** C2 (amended): when both URLs are non-empty strings, both downloads
    succeed and the inference returns anything but a two-element tuple (in
    particular any value that is not a two-element sequence), the
    [try]/[except] part computes the 500 response with the fixed
    unexpected-format message and no upload is issued during the request.
    The handler returns that response when none of the [finally] block's
    removals raises; a removal that raises escapes instead (see C1). *)
Theorem unexpected_format_500 : forall w kv hu gu r created,
  w_body w = inr (JObj kv) ->
  assoc "human_image_url" kv = Some (JStr hu) -> hu <> "" ->
  assoc "garment_image_url" kv = Some (JStr gu) -> gu <> "" ->
  w_download w hu = DlOk -> w_download w gu = DlOk ->
  w_predict w (human_input_path w hu) (garment_input_path w gu) (description kv) =
    PredReturned r created ->
  (forall a b, r <> RTuple [a; b]) ->
  primary_response w = jsonify [("error", UNEXPECTED_FORMAT_MSG)] 500 /\
  (forall b k ct, ~ In (EvUpload b k ct) (trace (fst (virtual_try_on w)))) /\
  responds_unless_cleanup_raises w (jsonify [("error", UNEXPECTED_FORMAT_MSG)] 500).
Proof.
  intros w kv hu gu r created Hb Hh Hhne Hg Hgne Hdh Hdg Hp Hr.
  unfold human_input_path, garment_input_path, description in Hp.
  assert (Hrun : exists s1, try_body w (init_state w) =
                   (s1, Ok (jsonify [("error", UNEXPECTED_FORMAT_MSG)] 500)) /\
                 forall b k ct, ~ In (EvUpload b k ct) (trace s1)).
  { run_to_predict Hb Hh Hg Hhne Hgne; rewrite Hdh, Hdg; run.
    rewrite !truthy_path_join; run.
    unfold gradio_predict; rewrite Hp; run.
    destruct r as [l | l |];
      [destruct l as [| a [| b [| c l]]]; [| | exfalso; exact (Hr a b eq_refl) |] | |];
      cbn; (eexists; split; [reflexivity|]); cbn; intros b' k ct Hin;
      repeat destruct Hin as [Hin | Hin]; discriminate || contradiction. }
  destruct Hrun as [s1 [Hrun Hno]].
  destruct (run_primary _ _ _ Hrun) as [Hprim Hs1].
  split; [exact Hprim|]. split.
  - apply no_upload_after_cleanup; rewrite Hs1; exact Hno.
  - apply outcome_of_primary; exact Hprim.
Qed.

Lemma unexpected_format_500_witness :
  let w := mk_world env_ok (inr (JObj req_ok)) (fun _ => DlOk)
             (PredReturned (RList ["/tmp/gradio/out.webp"; "/tmp/gradio/mask.png"]) [])
             (fun _ => None) in
  primary_response w = jsonify [("error", UNEXPECTED_FORMAT_MSG)] 500 /\
  (forall b k ct, ~ In (EvUpload b k ct) (trace (fst (virtual_try_on w)))) /\
  responds_unless_cleanup_raises w (jsonify [("error", UNEXPECTED_FORMAT_MSG)] 500).
Proof.
  intros w.
  apply (unexpected_format_500 w req_ok "http://h/a.jpg" "http://g/b.jpg"
           (RList ["/tmp/gradio/out.webp"; "/tmp/gradio/mask.png"]) []);
    try reflexivity; try discriminate.
Defined.

(** C2 counterexample: the inference answers in an unexpected shape and
    removing the downloaded garment image raises; the handler does not
    respond with the unexpected-format 500 but lets that exception escape. *)
Lemma unexpected_format_cleanup_raises :
  let w := mk_world env_ok (inr (JObj req_ok)) (fun _ => DlOk) (PredReturned ROther [])
             (fun p => if String.eqb p "temp_images/garment_input_u1_b.jpg"
                       then Some "[Errno 16] Device or resource busy" else None) in
  primary_response w = jsonify [("error", UNEXPECTED_FORMAT_MSG)] 500 /\
  snd (virtual_try_on w) = Raised "[Errno 16] Device or resource busy".
Proof. vm_compute; split; reflexivity. Qed.

(** ** C3: failed downloads *)

(** C3 (amended): when both URLs are non-empty strings and at least one of
    the two downloads fails with a [requests] error (non-success status or
    network failure), the other one not raising a different kind of error,
    both downloads are attempted, no inference and no upload take place, and
    the [try]/[except] part computes the 500 response with the fixed text
    "Failed to download one or more input images from provided URLs." (the
    download exception's own message is only logged).  The handler returns
    that response when none of the [finally] block's removals raises; a
    removal that raises escapes instead (see C1). *)
Theorem download_failure_500 : forall w kv hu gu,
  w_body w = inr (JObj kv) ->
  assoc "human_image_url" kv = Some (JStr hu) -> hu <> "" ->
  assoc "garment_image_url" kv = Some (JStr gu) -> gu <> "" ->
  download_fails (w_download w hu) || download_fails (w_download w gu) = true ->
  download_raises (w_download w hu) = false ->
  download_raises (w_download w gu) = false ->
  primary_response w = jsonify [("error", DOWNLOAD_FAILED_MSG)] 500 /\
  trace (state_before_cleanup w) = [EvGet hu; EvGet gu] /\
  responds_unless_cleanup_raises w (jsonify [("error", DOWNLOAD_FAILED_MSG)] 500).
Proof.
  intros w kv hu gu Hb Hh Hhne Hg Hgne Hf Hrh Hrg.
  assert (Hrun : exists s1, try_body w (init_state w) = (s1, Exc DOWNLOAD_FAILED_MSG) /\
                            trace s1 = [EvGet hu; EvGet gu]).
  { run_to_predict Hb Hh Hg Hhne Hgne.
    destruct (w_download w hu); destruct (w_download w gu); try discriminate; run;
      rewrite ?truthy_path_join; cbn; eexists; split; reflexivity. }
  destruct Hrun as [s1 [Hrun Ht]].
  destruct (run_primary_exc _ _ _ Hrun) as [Hprim Hs1].
  split; [exact Hprim|]. split; [rewrite Hs1; exact Ht|].
  apply outcome_of_primary; exact Hprim.
Qed.

Lemma download_failure_500_witness :
  let w := mk_world env_ok (inr (JObj req_ok))
             (fun u => if String.eqb u "http://h/a.jpg"
                       then DlRequestFailed "404 Client Error: Not Found for url: http://h/a.jpg"
                       else DlOk)
             gradio_pair (fun _ => None) in
  primary_response w = jsonify [("error", DOWNLOAD_FAILED_MSG)] 500 /\
  trace (state_before_cleanup w) = [EvGet "http://h/a.jpg"; EvGet "http://g/b.jpg"] /\
  responds_unless_cleanup_raises w (jsonify [("error", DOWNLOAD_FAILED_MSG)] 500).
Proof.
  intros w.
  apply (download_failure_500 w req_ok "http://h/a.jpg" "http://g/b.jpg");
    try reflexivity; try discriminate.
Defined.

(** C3 counterexample: the human image answers 404; the 500 response does
    not carry the download exception's message but the fixed text. *)
Lemma download_error_message_dropped :
  let w := mk_world env_ok (inr (JObj req_ok))
             (fun u => if String.eqb u "http://h/a.jpg"
                       then DlRequestFailed "404 Client Error: Not Found for url: http://h/a.jpg"
                       else DlOk)
             gradio_pair (fun _ => None) in
  virtual_try_on w = (fst (virtual_try_on w),
                      Returned (jsonify [("error", DOWNLOAD_FAILED_MSG)] 500)) /\
  DOWNLOAD_FAILED_MSG <> "404 Client Error: Not Found for url: http://h/a.jpg".
Proof.
  split; [vm_compute; reflexivity | intros H; discriminate H].
Qed.

(** ** C5: storage client not initialised *)

Lemma supabase_unconfigured : forall w,
  truthy_env (SUPABASE_URL w) = false \/ truthy_env (SUPABASE_KEY w) = false \/
  w_create_client_fails w = true ->
  supabase w = None.
Proof.
  intros w H; unfold supabase, truthy_env in *.
  destruct (SUPABASE_URL w) as [u|], (SUPABASE_KEY w) as [k|]; try reflexivity.
  destruct H as [H | [H | H]]; rewrite H; [| rewrite andb_false_r |]; try reflexivity.
  destruct (truthy_str u && truthy_str k); reflexivity.
Qed.

(** C5 (amended): when [SUPABASE_URL] or [SUPABASE_KEY] is missing or empty
    at start-up, or [create_client] raised, the module-level client is
    [None] (it is computed from the start-up environment only, so no request
    re-initialises it); then for a request whose downloads succeed and whose
    inference returns two paths, the [try]/[except] part computes the 500
    response carrying the "Supabase client not initialized" message and no
    upload is issued.  The handler returns that response when none of the
    [finally] block's removals raises; a removal that raises escapes instead
    (see C1). *)
Theorem storage_unavailable_500 : forall w kv hu gu a b created,
  truthy_env (SUPABASE_URL w) = false \/ truthy_env (SUPABASE_KEY w) = false \/
  w_create_client_fails w = true ->
  w_body w = inr (JObj kv) ->
  assoc "human_image_url" kv = Some (JStr hu) -> hu <> "" ->
  assoc "garment_image_url" kv = Some (JStr gu) -> gu <> "" ->
  w_download w hu = DlOk -> w_download w gu = DlOk ->
  w_predict w (human_input_path w hu) (garment_input_path w gu) (description kv) =
    PredReturned (RTuple [a; b]) created ->
  supabase w = None /\
  primary_response w = jsonify [("error", NOT_INITIALIZED_MSG)] 500 /\
  (forall bk k ct, ~ In (EvUpload bk k ct) (trace (fst (virtual_try_on w)))) /\
  responds_unless_cleanup_raises w (jsonify [("error", NOT_INITIALIZED_MSG)] 500).
Proof.
  intros w kv hu gu a b created Hcfg Hb Hh Hhne Hg Hgne Hdh Hdg Hp.
  pose proof (supabase_unconfigured w Hcfg) as Hsup.
  unfold human_input_path, garment_input_path, description in Hp.
  assert (Hrun : exists s1, try_body w (init_state w) = (s1, Exc NOT_INITIALIZED_MSG) /\
                 forall bk k ct, ~ In (EvUpload bk k ct) (trace s1)).
  { run_to_predict Hb Hh Hg Hhne Hgne; rewrite Hdh, Hdg; run.
    rewrite !truthy_path_join; run.
    unfold gradio_predict; rewrite Hp; run.
    unfold upload_to_supabase; rewrite Hsup; run.
    eexists; split; [reflexivity|]; cbn; intros bk k ct Hin;
      repeat destruct Hin as [Hin | Hin]; discriminate || contradiction. }
  destruct Hrun as [s1 [Hrun Hno]].
  destruct (run_primary_exc _ _ _ Hrun) as [Hprim Hs1].
  split; [exact Hsup|]. split; [exact Hprim|]. split.
  - apply no_upload_after_cleanup; rewrite Hs1; exact Hno.
  - apply outcome_of_primary; exact Hprim.
Qed.

Lemma storage_unavailable_500_witness :
  let w := mk_world (fun _ => None) (inr (JObj req_ok)) (fun _ => DlOk) gradio_pair
             (fun _ => None) in
  supabase w = None /\
  primary_response w = jsonify [("error", NOT_INITIALIZED_MSG)] 500 /\
  (forall bk k ct, ~ In (EvUpload bk k ct) (trace (fst (virtual_try_on w)))) /\
  responds_unless_cleanup_raises w (jsonify [("error", NOT_INITIALIZED_MSG)] 500).
Proof.
  intros w.
  apply (storage_unavailable_500 w req_ok "http://h/a.jpg" "http://g/b.jpg"
           "/tmp/gradio/out.webp" "/tmp/gradio/mask.png"
           ["/tmp/gradio/out.webp"; "/tmp/gradio/mask.png"]);
    try reflexivity; try discriminate.
  left; reflexivity.
Defined.

(** C5 counterexample: no storage client, inference returns two paths, and
    removing the mask output raises; the handler does not respond with the
    storage-unavailable 500 but lets that exception escape. *)
Lemma storage_unavailable_cleanup_raises :
  let w := mk_world (fun _ => None) (inr (JObj req_ok)) (fun _ => DlOk) gradio_pair
             (fun p => if String.eqb p "/tmp/gradio/mask.png"
                       then Some "[Errno 1] Operation not permitted" else None) in
  primary_response w = jsonify [("error", NOT_INITIALIZED_MSG)] 500 /\
  snd (virtual_try_on w) = Raised "[Errno 1] Operation not permitted".
Proof. vm_compute; split; reflexivity. Qed.

Lemma exists_after_inference_fs : forall w hu gu created p,
  exists_after_inference w hu gu created p ->
  fs_exists p (fold_left (fun acc q => fs_add q acc) created
    (fs_add (path_join UPLOAD_FOLDER ("garment_input_" ++ w_uuid w 1 ++ "_" ++ split_q0 (basename gu)))
       (fs_add (path_join UPLOAD_FOLDER ("human_input_" ++ w_uuid w 0 ++ "_" ++ split_q0 (basename hu)))
          (w_fs w)))) = true.
Proof.
  intros w hu gu created p [H | [H | [H | H]]];
    [| | | apply fs_exists_created, H]; apply fs_exists_iff, fold_fs_add_keeps.
  - apply fs_add_keeps, fs_add_keeps, H.
  - rewrite H; apply fs_add_keeps, fs_add_new.
  - rewrite H; apply fs_add_new.
Qed.

(** ** C7: the successful round trip *)

(** C7 (amended): when both URLs are non-empty strings, both downloads
    succeed, the inference returns a two-element tuple [(a, b)] of paths
    that exist locally, the storage client is initialised and both uploads
    succeed, then [a] is uploaded under [processed_images/] and then [b]
    under [masked_images/], and the [try]/[except] part computes the 200
    response with exactly [{"output_url": <public URL of a's key>,
    "masked_url": <public URL of b's key>}].  The handler returns that
    response when none of the [finally] block's removals raises; a removal
    that raises escapes instead (see C1). *)
Theorem round_trip_200 : forall w kv hu gu a b created c,
  w_body w = inr (JObj kv) ->
  assoc "human_image_url" kv = Some (JStr hu) -> hu <> "" ->
  assoc "garment_image_url" kv = Some (JStr gu) -> gu <> "" ->
  w_download w hu = DlOk -> w_download w gu = DlOk ->
  w_predict w (human_input_path w hu) (garment_input_path w gu) (description kv) =
    PredReturned (RTuple [a; b]) created ->
  exists_after_inference w hu gu created a -> exists_after_inference w hu gu created b ->
  supabase w = Some c ->
  w_upload w (SUPABASE_BUCKET_NAME w) (object_key w 2 "processed_images" a) = None ->
  w_upload w (SUPABASE_BUCKET_NAME w) (object_key w 3 "masked_images" b) = None ->
  let bk := SUPABASE_BUCKET_NAME w in
  let k1 := object_key w 2 "processed_images" a in
  let k2 := object_key w 3 "masked_images" b in
  let resp := jsonify [("output_url", w_public_url w bk k1);
                       ("masked_url", w_public_url w bk k2)] 200 in
  primary_response w = resp /\
  trace (state_before_cleanup w) =
    [EvGet hu; EvGet gu;
     EvPredict (human_input_path w hu) (garment_input_path w gu) (description kv);
     EvUpload bk k1 (content_type_for (basename a)); EvPublicUrl bk k1;
     EvUpload bk k2 (content_type_for (basename b)); EvPublicUrl bk k2] /\
  responds_unless_cleanup_raises w resp.
Proof.
  intros w kv hu gu a b created c Hb Hh Hhne Hg Hgne Hdh Hdg Hp Ha Hbin Hsup Hu1 Hu2
    bk k1 k2 resp.
  unfold human_input_path, garment_input_path, description in Hp.
  unfold object_key in Hu1, Hu2.
  assert (Hrun : exists s1, try_body w (init_state w) = (s1, Ok resp) /\
    trace s1 =
    [EvGet hu; EvGet gu;
     EvPredict (human_input_path w hu) (garment_input_path w gu) (description kv);
     EvUpload bk k1 (content_type_for (basename a)); EvPublicUrl bk k1;
     EvUpload bk k2 (content_type_for (basename b)); EvPublicUrl bk k2]).
  { run_to_predict Hb Hh Hg Hhne Hgne; rewrite Hdh, Hdg; run.
    rewrite !truthy_path_join; run.
    unfold gradio_predict; rewrite Hp; run.
    unfold upload_to_supabase; rewrite Hsup; crunch.
    rewrite (exists_after_inference_fs _ _ _ _ _ Ha); crunch. rewrite Hu1; crunch.
    rewrite (exists_after_inference_fs _ _ _ _ _ Hbin); crunch. rewrite Hu2; crunch.
    eexists; split; reflexivity. }
  destruct Hrun as [s1 [Hrun Ht]].
  destruct (run_primary _ _ _ Hrun) as [Hprim Hs1].
  split; [exact Hprim|]. split; [rewrite Hs1; exact Ht|].
  apply outcome_of_primary; exact Hprim.
Qed.

Lemma round_trip_200_witness :
  let w := mk_world env_ok (inr (JObj req_ok)) (fun _ => DlOk) gradio_pair (fun _ => None) in
  let bk := SUPABASE_BUCKET_NAME w in
  let k1 := object_key w 2 "processed_images" "/tmp/gradio/out.webp" in
  let k2 := object_key w 3 "masked_images" "/tmp/gradio/mask.png" in
  let resp := jsonify [("output_url", w_public_url w bk k1);
                       ("masked_url", w_public_url w bk k2)] 200 in
  primary_response w = resp /\
  trace (state_before_cleanup w) =
    [EvGet "http://h/a.jpg"; EvGet "http://g/b.jpg";
     EvPredict (human_input_path w "http://h/a.jpg") (garment_input_path w "http://g/b.jpg")
       (description req_ok);
     EvUpload bk k1 (content_type_for (basename "/tmp/gradio/out.webp")); EvPublicUrl bk k1;
     EvUpload bk k2 (content_type_for (basename "/tmp/gradio/mask.png")); EvPublicUrl bk k2] /\
  responds_unless_cleanup_raises w resp.
Proof.
  intros w.
  apply (round_trip_200 w req_ok "http://h/a.jpg" "http://g/b.jpg"
           "/tmp/gradio/out.webp" "/tmp/gradio/mask.png"
           ["/tmp/gradio/out.webp"; "/tmp/gradio/mask.png"]
           {| client_url := "https://x.supabase.co"; client_key := "service-key" |});
    try reflexivity; try discriminate;
    unfold exists_after_inference; right; right; right; simpl; auto.
Defined.

(** C7 counterexample: two runs in which inference returns two paths but the
    handler does not answer 200: the storage client is not configured, or
    the two paths come back as a list rather than a tuple. *)
Lemma two_outputs_without_200 :
  let w1 := mk_world (fun _ => None) (inr (JObj req_ok)) (fun _ => DlOk) gradio_pair
              (fun _ => None) in
  let w2 := mk_world env_ok (inr (JObj req_ok)) (fun _ => DlOk)
              (PredReturned (RList ["/tmp/gradio/out.webp"; "/tmp/gradio/mask.png"])
                            ["/tmp/gradio/out.webp"; "/tmp/gradio/mask.png"])
              (fun _ => None) in
  snd (virtual_try_on w1) = Returned (jsonify [("error", NOT_INITIALIZED_MSG)] 500) /\
  snd (virtual_try_on w2) = Returned (jsonify [("error", UNEXPECTED_FORMAT_MSG)] 500).
Proof. split; vm_compute; reflexivity. Qed.

(** ** C10: default garment description *)


Lemma predict_gets_description : forall w kv,
  w_body w = inr (JObj kv) ->
  forall h g d, In (EvPredict h g d) (trace (state_before_cleanup w)) -> d = description kv.
Proof.
  intros w kv Hb.
  unfold state_before_cleanup, try_body, get_json, description; rewrite Hb; crunch_all.
  repeat (match goal with
          | |- context [match ?x with _ => _ end] =>
              lazymatch type of x with
              | prod _ _ => fail
              | st => fail
              | _ => destruct x
              end
          end; crunch_all).
  all: intros h g d Hin; cbn in Hin; repeat destruct Hin as [Hin | Hin];
       try discriminate; try contradiction; congruence.
Qed.

(** C10: when the JSON object has no [garment_description], the handler
    behaves exactly as for the same object with ["garment_description": ""]
    (same final state, same events, same outcome), and every inference call
    it makes receives the empty string as the garment description. *)
Theorem default_description : forall w kv,
  w_body w = inr (JObj kv) ->
  assoc "garment_description" kv = None ->
  virtual_try_on w =
    virtual_try_on (with_body w (inr (JObj (("garment_description", JStr "") :: kv)))) /\
  (forall h g d, In (EvPredict h g d) (trace (fst (virtual_try_on w))) -> d = JStr "").
Proof.
  intros w kv Hb Hnone; split.
  - unfold virtual_try_on, try_body, get_json; cbn [with_body w_body]; rewrite Hb.
    run; rewrite Hnone; reflexivity.
  - intros h g d Hin.
    destruct (cleanup_outcome w) as [[nw [Ht Hf]] _]; rewrite Ht in Hin.
    apply in_app_or in Hin as [Hin | Hin].
    + rewrite (predict_gets_description w kv Hb h g d Hin); unfold description; rewrite Hnone;
        reflexivity.
    + rewrite Forall_forall in Hf; destruct (Hf _ Hin).
Qed.

Lemma default_description_witness :
  let kv := [("human_image_url", JStr "http://h/a.jpg"); ("garment_image_url", JStr "http://g/b.jpg")] in
  let w := mk_world env_ok (inr (JObj kv)) (fun _ => DlOk) gradio_pair (fun _ => None) in
  virtual_try_on w =
    virtual_try_on (with_body w (inr (JObj (("garment_description", JStr "") :: kv)))) /\
  (forall h g d, In (EvPredict h g d) (trace (fst (virtual_try_on w))) -> d = JStr "").
Proof.
  intros kv w. apply (default_description w kv); reflexivity.
Defined.


(** * Further properties of [main.py] *)

(** ** Scratch file names (lines 117-118) *)

Lemma string_app_assoc : forall a b c : string, (a ++ b) ++ c = a ++ (b ++ c).
Proof. induction a as [|x a IH]; intros b c; simpl; [reflexivity | rewrite IH; reflexivity]. Qed.

Lemma string_app_nil_r : forall a : string, a ++ "" = a.
Proof. induction a as [|x a IH]; simpl; [reflexivity | rewrite IH; reflexivity]. Qed.

Lemma basename_acc_after_slash : forall s1 s2 acc,
  basename_acc (s1 ++ "/" ++ s2) acc = basename_acc s2 "".
Proof.
  induction s1 as [|c s1 IH]; intros s2 acc; [reflexivity|].
  simpl; destruct (Ascii.eqb c "/"); apply IH.
Qed.

Lemma basename_acc_no_slash : forall s acc,
  no_char "/" s = true -> basename_acc s acc = acc ++ s.
Proof.
  induction s as [|c s IH]; intros acc H; simpl in *.
  - rewrite string_app_nil_r; reflexivity.
  - apply andb_true_iff in H as [Hc H].
    destruct (Ascii.eqb c "/"); [discriminate Hc|].
    rewrite IH by exact H; rewrite string_app_assoc; reflexivity.
Qed.

Lemma split_q0_no_q : forall n, no_char "?" n = true -> split_q0 n = n.
Proof.
  induction n as [|c n IH]; intros H; [reflexivity|].
  simpl in *; apply andb_true_iff in H as [Hc H].
  destruct (Ascii.eqb c "?"); [discriminate Hc | rewrite IH by exact H; reflexivity].
Qed.

Lemma split_q0_query : forall n q, no_char "?" n = true -> split_q0 (n ++ "?" ++ q) = n.
Proof.
  induction n as [|c n IH]; intros q H; [reflexivity|].
  simpl in *; apply andb_true_iff in H as [Hc H].
  destruct (Ascii.eqb c "?"); [discriminate Hc | rewrite IH by exact H; reflexivity].
Qed.

Lemma no_char_app : forall c a b, no_char c (a ++ b) = no_char c a && no_char c b.
Proof.
  induction a as [|x a IH]; intros b; simpl; [reflexivity | rewrite IH, andb_assoc; reflexivity].
Qed.

(** The scratch files of a URL [p/name] or [p/name?q], where [name] holds
    neither ['/'] nor ['?'] and the query holds no ['/'], are
    [temp_images/human_input_<uuid>_name] and
    [temp_images/garment_input_<uuid>_name]: the query is dropped. *)
Theorem scratch_name_from_url : forall w p name q,
  no_char "/" name = true -> no_char "?" name = true -> no_char "/" q = true ->
  human_input_path w (p ++ "/" ++ name) =
    "temp_images/human_input_" ++ w_uuid w 0 ++ "_" ++ name /\
  human_input_path w (p ++ "/" ++ name ++ "?" ++ q) =
    "temp_images/human_input_" ++ w_uuid w 0 ++ "_" ++ name /\
  garment_input_path w (p ++ "/" ++ name) =
    "temp_images/garment_input_" ++ w_uuid w 1 ++ "_" ++ name /\
  garment_input_path w (p ++ "/" ++ name ++ "?" ++ q) =
    "temp_images/garment_input_" ++ w_uuid w 1 ++ "_" ++ name.
Proof.
  intros w p name q Hs Hq Hqs.
  assert (Hb1 : basename (p ++ "/" ++ name) = name).
  { unfold basename; rewrite basename_acc_after_slash, basename_acc_no_slash by exact Hs;
    reflexivity. }
  assert (Hb2 : basename (p ++ "/" ++ name ++ "?" ++ q) = name ++ "?" ++ q).
  { unfold basename; rewrite basename_acc_after_slash, basename_acc_no_slash; [reflexivity|].
    rewrite no_char_app, Hs; simpl; exact Hqs. }
  unfold human_input_path, garment_input_path; rewrite Hb1, Hb2.
  rewrite split_q0_no_q by exact Hq; rewrite split_q0_query by exact Hq.
  repeat split.
Qed.

Lemma scratch_name_from_url_witness :
  let w := mk_world env_ok (inr (JObj req_ok)) (fun _ => DlOk) gradio_pair (fun _ => None) in
  human_input_path w ("http://h/img" ++ "/" ++ "a.jpg") =
    "temp_images/human_input_" ++ w_uuid w 0 ++ "_" ++ "a.jpg" /\
  human_input_path w ("http://h/img" ++ "/" ++ "a.jpg" ++ "?" ++ "v=2") =
    "temp_images/human_input_" ++ w_uuid w 0 ++ "_" ++ "a.jpg" /\
  garment_input_path w ("http://h/img" ++ "/" ++ "a.jpg") =
    "temp_images/garment_input_" ++ w_uuid w 1 ++ "_" ++ "a.jpg" /\
  garment_input_path w ("http://h/img" ++ "/" ++ "a.jpg" ++ "?" ++ "v=2") =
    "temp_images/garment_input_" ++ w_uuid w 1 ++ "_" ++ "a.jpg".
Proof. intros w; apply scratch_name_from_url; reflexivity. Defined.

(** The two input scratch files of a request never share a path. *)
Theorem scratch_paths_distinct : forall w hu gu,
  human_input_path w hu <> garment_input_path w gu.
Proof. intros w hu gu; unfold human_input_path, garment_input_path; simpl; discriminate. Qed.

(** ** [download_image] *)

(** [download_image] always issues one GET and never removes a file.  On
    success it returns [temp_images/<filename>], which now exists; a
    [requests] error before the body is streamed gives [None] and creates
    nothing; a [requests] error while streaming also gives [None] but leaves
    the partly written file behind; an [OSError] from [open] escapes. *)
Theorem download_image_outcomes : forall w url filename s,
  let fp := path_join UPLOAD_FOLDER filename in
  let s' := fst (download_image w url filename s) in
  let r := snd (download_image w url filename s) in
  trace s' = (trace s ++ [EvGet url])%list /\
  incl (fs s) (fs s') /\
  match w_download w url with
  | DlOk => r = Ok (Some fp) /\ In fp (fs s')
  | DlRequestFailed _ => r = Ok None /\ fs s' = fs s
  | DlStreamFailed _ => r = Ok None /\ In fp (fs s')
  | DlOpenFailed e => r = Exc e /\ fs s' = fs s
  end.
Proof.
  intros w url filename s fp s' r; unfold s', r, download_image.
  destruct (w_download w url); cbn; (split; [reflexivity|]);
    (split; [try apply incl_refl; intros x Hx; apply fs_add_keeps, Hx|]);
    (split; [reflexivity | try reflexivity; try apply fs_add_new]).
Qed.

(** ** [upload_to_supabase] *)

(** With a configured client, a path that does not exist locally makes
    [upload_to_supabase] raise [File not found for upload: <path>] before it
    draws a uuid or contacts the bucket: the state is unchanged. *)
Theorem upload_missing_file : forall w file_path destination_folder s c,
  supabase w = Some c ->
  fs_exists file_path (fs s) = false ->
  upload_to_supabase w file_path destination_folder s =
    (s, Exc ("File not found for upload: " ++ file_path)).
Proof.
  intros w fp folder s c Hsup Hex; unfold upload_to_supabase; rewrite Hsup; cbn.
  rewrite Hex; reflexivity.
Qed.

Lemma upload_missing_file_witness :
  let w := mk_world env_ok (inr (JObj req_ok)) (fun _ => DlOk) gradio_pair (fun _ => None) in
  let s := mkSt [] 2 [] None None None None in
  upload_to_supabase w "/tmp/gradio/out.webp" "processed_images" s =
    (s, Exc ("File not found for upload: " ++ "/tmp/gradio/out.webp")).
Proof.
  intros w s.
  apply (upload_missing_file w _ _ s {| client_url := "https://x.supabase.co"; client_key := "service-key" |});
    reflexivity.
Defined.

(** When the bucket rejects the upload, [upload_to_supabase] re-raises the
    backend's exception unchanged: the upload was attempted once under the
    generated key, the public URL is never requested, and no local file is
    touched. *)
Theorem upload_backend_error : forall w file_path destination_folder s c e,
  supabase w = Some c ->
  In file_path (fs s) ->
  w_upload w (SUPABASE_BUCKET_NAME w) (object_key w (uuid_n s) destination_folder file_path) =
    Some e ->
  snd (upload_to_supabase w file_path destination_folder s) = Exc e /\
  trace (fst (upload_to_supabase w file_path destination_folder s)) =
    (trace s ++ [EvUpload (SUPABASE_BUCKET_NAME w)
                   (object_key w (uuid_n s) destination_folder file_path)
                   (content_type_for (basename file_path))])%list /\
  fs (fst (upload_to_supabase w file_path destination_folder s)) = fs s.
Proof.
  intros w fp folder s c e Hsup Hin Hup; unfold object_key in Hup |- *.
  apply fs_exists_iff in Hin.
  destruct s as [f n t a b c' d]; cbn [fs uuid_n] in Hin, Hup.
  unfold upload_to_supabase; rewrite Hsup; crunch. rewrite Hin; crunch. rewrite Hup; crunch.
  repeat split.
Qed.

Lemma upload_backend_error_witness :
  let w := {| w_env := env_ok; w_create_client_fails := false; w_body := inr (JObj req_ok);
              w_uuid := uuids; w_download := fun _ => DlOk; w_predict := fun _ _ _ => gradio_pair;
              w_upload := fun _ _ => Some "413 Payload Too Large";
              w_public_url := fun bk k => bk ++ "/" ++ k; w_remove_error := fun _ => None;
              w_fs := [] |} in
  let s := mkSt ["/tmp/gradio/out.webp"] 2 [] None None None None in
  snd (upload_to_supabase w "/tmp/gradio/out.webp" "processed_images" s) =
    Exc "413 Payload Too Large" /\
  trace (fst (upload_to_supabase w "/tmp/gradio/out.webp" "processed_images" s)) =
    (trace s ++ [EvUpload (SUPABASE_BUCKET_NAME w)
                   (object_key w (uuid_n s) "processed_images" "/tmp/gradio/out.webp")
                   (content_type_for (basename "/tmp/gradio/out.webp"))])%list /\
  fs (fst (upload_to_supabase w "/tmp/gradio/out.webp" "processed_images" s)) = fs s.
Proof.
  intros w s.
  apply (upload_backend_error w _ _ s {| client_url := "https://x.supabase.co"; client_key := "service-key" |});
    [reflexivity | left; reflexivity | reflexivity].
Defined.

(** ** Failure paths of the handler *)

Lemma input_paths_differ : forall w hu gu,
  path_join UPLOAD_FOLDER ("human_input_" ++ w_uuid w 0 ++ "_" ++ split_q0 (basename hu)) <>
  path_join UPLOAD_FOLDER ("garment_input_" ++ w_uuid w 1 ++ "_" ++ split_q0 (basename gu)).
Proof. intros w hu gu; unfold path_join, UPLOAD_FOLDER; simpl; discriminate. Qed.

Lemma kept_if_unrecorded : forall w q,
  In q (fs (state_before_cleanup w)) -> ~ In (Some q) (recorded (state_before_cleanup w)) ->
  In q (fs (fst (virtual_try_on w))).
Proof.
  intros w q; rewrite virtual_try_on_unfold, cleanup_remove_each; cbn [fst snd].
  pose proof (remove_each_spec w (recorded (state_before_cleanup w)) (state_before_cleanup w)) as H.
  destruct (remove_each w _ _) as [s2' r]; cbn [fst snd].
  destruct H as [_ [_ [_ [Hkeep _]]]]; exact (Hkeep q).
Qed.

(** A download that breaks while streaming has already created its scratch
    file, but [download_image] returns [None], so the handler never records
    the path and the [finally] block does not remove it: the partial file is
    still on disk after the request (whatever the clean-up of the other
    files does). *)
Theorem partial_download_left_behind : forall w kv hu gu,
  w_body w = inr (JObj kv) ->
  assoc "human_image_url" kv = Some (JStr hu) -> hu <> "" ->
  assoc "garment_image_url" kv = Some (JStr gu) -> gu <> "" ->
  download_raises (w_download w hu) = false ->
  download_raises (w_download w gu) = false ->
  (forall m, w_download w hu = DlStreamFailed m ->
     In (human_input_path w hu) (fs (fst (virtual_try_on w)))) /\
  (forall m, w_download w gu = DlStreamFailed m ->
     In (garment_input_path w gu) (fs (fst (virtual_try_on w)))).
Proof.
  intros w kv hu gu Hb Hh Hhne Hg Hgne Hrh Hrg.
  split; intros m Hd; apply kept_if_unrecorded;
    unfold state_before_cleanup, human_input_path, garment_input_path;
    run_to_predict Hb Hh Hg Hhne Hgne.
  all: rewrite Hd; destruct (w_download w hu); destruct (w_download w gu); try discriminate; run;
    rewrite ?truthy_path_join; run.
  all: lazymatch goal with
       | |- In ?p (fs_add ?p _) => exact (fs_add_new _ _)
       | |- In ?p (fs_add _ (fs_add ?p _)) => exact (fs_add_keeps _ _ _ (fs_add_new _ _))
       | |- _ => idtac
       end.
  all: intros Hin; repeat destruct Hin as [Hin | Hin];
       match type of Hin with
       | None = _ => discriminate Hin
       | Some _ = Some _ =>
           let H' := constr:(f_equal (fun o => match o with Some x => x | None => EmptyString end) Hin) in
           first [ exact (input_paths_differ w hu gu H')
                 | exact (input_paths_differ w hu gu (eq_sym H')) ]
       | False => destruct Hin
       end.
Qed.

Lemma partial_download_left_behind_witness :
  let w := mk_world env_ok (inr (JObj req_ok))
             (fun u => if String.eqb u "http://h/a.jpg"
                       then DlStreamFailed "Connection broken: IncompleteRead" else DlOk)
             gradio_pair (fun _ => None) in
  In (human_input_path w "http://h/a.jpg") (fs (fst (virtual_try_on w))).
Proof.
  intros w.
  apply (proj1 (partial_download_left_behind w req_ok "http://h/a.jpg" "http://g/b.jpg"
                  eq_refl eq_refl ltac:(discriminate) eq_refl ltac:(discriminate)
                  eq_refl eq_refl) "Connection broken: IncompleteRead").
  reflexivity.
Defined.

(** When the first upload (the try-on image, under [processed_images/])
    is rejected by the bucket, the [try]/[except] part computes the 500
    response with the backend's message, which the handler returns unless a
    removal of the [finally] block raises; the masked image is never
    uploaded, no public URL is requested, and both inference outputs are
    recorded for the clean-up. *)
Theorem first_upload_error_500 : forall w kv hu gu a b created c e,
  w_body w = inr (JObj kv) ->
  assoc "human_image_url" kv = Some (JStr hu) -> hu <> "" ->
  assoc "garment_image_url" kv = Some (JStr gu) -> gu <> "" ->
  w_download w hu = DlOk -> w_download w gu = DlOk ->
  w_predict w (human_input_path w hu) (garment_input_path w gu) (description kv) =
    PredReturned (RTuple [a; b]) created ->
  In a created ->
  supabase w = Some c ->
  w_upload w (SUPABASE_BUCKET_NAME w) (object_key w 2 "processed_images" a) = Some e ->
  primary_response w = jsonify [("error", e)] 500 /\
  responds_unless_cleanup_raises w (jsonify [("error", e)] 500) /\
  trace (state_before_cleanup w) =
    [EvGet hu; EvGet gu;
     EvPredict (human_input_path w hu) (garment_input_path w gu) (description kv);
     EvUpload (SUPABASE_BUCKET_NAME w) (object_key w 2 "processed_images" a)
              (content_type_for (basename a))] /\
  local_gradio_output_path (state_before_cleanup w) = Some a /\
  local_gradio_masked_path (state_before_cleanup w) = Some b.
Proof.
  intros w kv hu gu a b created c e Hb Hh Hhne Hg Hgne Hdh Hdg Hp Ha Hsup Hu1.
  unfold human_input_path, garment_input_path, description in Hp.
  unfold object_key in Hu1.
  assert (Hrun : exists s1, try_body w (init_state w) = (s1, Exc e) /\
    trace s1 =
    [EvGet hu; EvGet gu;
     EvPredict (human_input_path w hu) (garment_input_path w gu) (description kv);
     EvUpload (SUPABASE_BUCKET_NAME w) (object_key w 2 "processed_images" a)
              (content_type_for (basename a))] /\
    local_gradio_output_path s1 = Some a /\ local_gradio_masked_path s1 = Some b).
  { run_to_predict Hb Hh Hg Hhne Hgne; rewrite Hdh, Hdg; run.
    rewrite !truthy_path_join; run.
    unfold gradio_predict; rewrite Hp; run.
    unfold upload_to_supabase; rewrite Hsup; crunch.
    rewrite (fs_exists_created _ _ _ Ha); crunch. rewrite Hu1; crunch.
    eexists; split; [reflexivity | repeat split]. }
  destruct Hrun as [s1 [Hrun [Ht [Ho Hm]]]].
  destruct (run_primary_exc _ _ _ Hrun) as [Hprim Hs1].
  split; [exact Hprim|]; split; [apply outcome_of_primary; exact Hprim|].
  rewrite Hs1; repeat split; assumption.
Qed.

Lemma first_upload_error_500_witness :
  let w := {| w_env := env_ok; w_create_client_fails := false; w_body := inr (JObj req_ok);
              w_uuid := uuids; w_download := fun _ => DlOk; w_predict := fun _ _ _ => gradio_pair;
              w_upload := fun _ _ => Some "413 Payload Too Large";
              w_public_url := fun bk k => bk ++ "/" ++ k; w_remove_error := fun _ => None;
              w_fs := [] |} in
  primary_response w = jsonify [("error", "413 Payload Too Large")] 500 /\
  responds_unless_cleanup_raises w (jsonify [("error", "413 Payload Too Large")] 500) /\
  trace (state_before_cleanup w) =
    [EvGet "http://h/a.jpg"; EvGet "http://g/b.jpg";
     EvPredict (human_input_path w "http://h/a.jpg") (garment_input_path w "http://g/b.jpg")
       (description req_ok);
     EvUpload (SUPABASE_BUCKET_NAME w) (object_key w 2 "processed_images" "/tmp/gradio/out.webp")
              (content_type_for (basename "/tmp/gradio/out.webp"))] /\
  local_gradio_output_path (state_before_cleanup w) = Some "/tmp/gradio/out.webp" /\
  local_gradio_masked_path (state_before_cleanup w) = Some "/tmp/gradio/mask.png".
Proof.
  intros w.
  apply (first_upload_error_500 w req_ok "http://h/a.jpg" "http://g/b.jpg"
           "/tmp/gradio/out.webp" "/tmp/gradio/mask.png"
           ["/tmp/gradio/out.webp"; "/tmp/gradio/mask.png"]
           {| client_url := "https://x.supabase.co"; client_key := "service-key" |});
    try reflexivity; try discriminate; simpl; auto.
Defined.

(** When the first upload succeeds and the second (the mask, under
    [masked_images/]) is rejected, the [try]/[except] part computes the 500
    response with the backend's message, which the handler returns unless a
    removal of the [finally] block raises, although the try-on image is
    already stored in the bucket and its public URL was computed: nothing
    undoes the first upload. *)
Theorem second_upload_error_500 : forall w kv hu gu a b created c e,
  w_body w = inr (JObj kv) ->
  assoc "human_image_url" kv = Some (JStr hu) -> hu <> "" ->
  assoc "garment_image_url" kv = Some (JStr gu) -> gu <> "" ->
  w_download w hu = DlOk -> w_download w gu = DlOk ->
  w_predict w (human_input_path w hu) (garment_input_path w gu) (description kv) =
    PredReturned (RTuple [a; b]) created ->
  In a created -> In b created ->
  supabase w = Some c ->
  w_upload w (SUPABASE_BUCKET_NAME w) (object_key w 2 "processed_images" a) = None ->
  w_upload w (SUPABASE_BUCKET_NAME w) (object_key w 3 "masked_images" b) = Some e ->
  let bk := SUPABASE_BUCKET_NAME w in
  let k1 := object_key w 2 "processed_images" a in
  let k2 := object_key w 3 "masked_images" b in
  primary_response w = jsonify [("error", e)] 500 /\
  responds_unless_cleanup_raises w (jsonify [("error", e)] 500) /\
  trace (state_before_cleanup w) =
    [EvGet hu; EvGet gu;
     EvPredict (human_input_path w hu) (garment_input_path w gu) (description kv);
     EvUpload bk k1 (content_type_for (basename a)); EvPublicUrl bk k1;
     EvUpload bk k2 (content_type_for (basename b))].
Proof.
  intros w kv hu gu a b created c e Hb Hh Hhne Hg Hgne Hdh Hdg Hp Ha Hbin Hsup Hu1 Hu2 bk k1 k2.
  unfold human_input_path, garment_input_path, description in Hp.
  unfold object_key in Hu1, Hu2.
  assert (Hrun : exists s1, try_body w (init_state w) = (s1, Exc e) /\
    trace s1 =
    [EvGet hu; EvGet gu;
     EvPredict (human_input_path w hu) (garment_input_path w gu) (description kv);
     EvUpload bk k1 (content_type_for (basename a)); EvPublicUrl bk k1;
     EvUpload bk k2 (content_type_for (basename b))]).
  { run_to_predict Hb Hh Hg Hhne Hgne; rewrite Hdh, Hdg; run.
    rewrite !truthy_path_join; run.
    unfold gradio_predict; rewrite Hp; run.
    unfold upload_to_supabase; rewrite Hsup; crunch.
    rewrite (fs_exists_created _ _ _ Ha); crunch. rewrite Hu1; crunch.
    rewrite (fs_exists_created _ _ _ Hbin); crunch. rewrite Hu2; crunch.
    eexists; split; reflexivity. }
  destruct Hrun as [s1 [Hrun Ht]].
  destruct (run_primary_exc _ _ _ Hrun) as [Hprim Hs1].
  split; [exact Hprim|]; split; [apply outcome_of_primary; exact Hprim|].
  rewrite Hs1; assumption.
Qed.

Lemma second_upload_error_500_witness :
  let w := {| w_env := env_ok; w_create_client_fails := false; w_body := inr (JObj req_ok);
              w_uuid := uuids; w_download := fun _ => DlOk; w_predict := fun _ _ _ => gradio_pair;
              w_upload := fun _ k => if is_prefix (list_ascii_of_string "masked")
                                                  (list_ascii_of_string k)
                                     then Some "503 Service Unavailable" else None;
              w_public_url := fun bk k => bk ++ "/" ++ k; w_remove_error := fun _ => None;
              w_fs := [] |} in
  let bk := SUPABASE_BUCKET_NAME w in
  let k1 := object_key w 2 "processed_images" "/tmp/gradio/out.webp" in
  let k2 := object_key w 3 "masked_images" "/tmp/gradio/mask.png" in
  primary_response w = jsonify [("error", "503 Service Unavailable")] 500 /\
  responds_unless_cleanup_raises w (jsonify [("error", "503 Service Unavailable")] 500) /\
  trace (state_before_cleanup w) =
    [EvGet "http://h/a.jpg"; EvGet "http://g/b.jpg";
     EvPredict (human_input_path w "http://h/a.jpg") (garment_input_path w "http://g/b.jpg")
       (description req_ok);
     EvUpload bk k1 (content_type_for (basename "/tmp/gradio/out.webp")); EvPublicUrl bk k1;
     EvUpload bk k2 (content_type_for (basename "/tmp/gradio/mask.png"))].
Proof.
  intros w.
  apply (second_upload_error_500 w req_ok "http://h/a.jpg" "http://g/b.jpg"
           "/tmp/gradio/out.webp" "/tmp/gradio/mask.png"
           ["/tmp/gradio/out.webp"; "/tmp/gradio/mask.png"]
           {| client_url := "https://x.supabase.co"; client_key := "service-key" |});
    try reflexivity; try discriminate; simpl; auto.
Defined.

(** When the inference call raises, the [try]/[except] part computes the
    500 response with that exception's message, which the handler returns
    unless a removal of the [finally] block raises; nothing is uploaded, and
    only the two downloaded inputs are recorded for the clean-up. *)
Theorem inference_error_500 : forall w kv hu gu e,
  w_body w = inr (JObj kv) ->
  assoc "human_image_url" kv = Some (JStr hu) -> hu <> "" ->
  assoc "garment_image_url" kv = Some (JStr gu) -> gu <> "" ->
  w_download w hu = DlOk -> w_download w gu = DlOk ->
  w_predict w (human_input_path w hu) (garment_input_path w gu) (description kv) = PredRaised e ->
  primary_response w = jsonify [("error", e)] 500 /\
  responds_unless_cleanup_raises w (jsonify [("error", e)] 500) /\
  trace (state_before_cleanup w) =
    [EvGet hu; EvGet gu;
     EvPredict (human_input_path w hu) (garment_input_path w gu) (description kv)] /\
  recorded (state_before_cleanup w) =
    [Some (human_input_path w hu); Some (garment_input_path w gu); None; None].
Proof.
  intros w kv hu gu e Hb Hh Hhne Hg Hgne Hdh Hdg Hp.
  unfold human_input_path, garment_input_path, description in Hp |- *.
  assert (Hrun : exists s1, try_body w (init_state w) = (s1, Exc e) /\
    trace s1 =
    [EvGet hu; EvGet gu;
     EvPredict (path_join UPLOAD_FOLDER ("human_input_" ++ w_uuid w 0 ++ "_" ++ split_q0 (basename hu)))
               (path_join UPLOAD_FOLDER ("garment_input_" ++ w_uuid w 1 ++ "_" ++ split_q0 (basename gu)))
               (match assoc "garment_description" kv with Some v => v | None => JStr "" end)] /\
    recorded s1 =
    [Some (path_join UPLOAD_FOLDER ("human_input_" ++ w_uuid w 0 ++ "_" ++ split_q0 (basename hu)));
     Some (path_join UPLOAD_FOLDER ("garment_input_" ++ w_uuid w 1 ++ "_" ++ split_q0 (basename gu)));
     None; None]).
  { run_to_predict Hb Hh Hg Hhne Hgne; rewrite Hdh, Hdg; run.
    rewrite !truthy_path_join; run.
    unfold gradio_predict; rewrite Hp; run.
    eexists; split; [reflexivity | split; reflexivity]. }
  destruct Hrun as [s1 [Hrun [Ht Hr]]].
  destruct (run_primary_exc _ _ _ Hrun) as [Hprim Hs1].
  split; [exact Hprim|]; split; [apply outcome_of_primary; exact Hprim|].
  rewrite Hs1; repeat split; assumption.
Qed.

Lemma inference_error_500_witness :
  let w := mk_world env_ok (inr (JObj req_ok)) (fun _ => DlOk)
             (PredRaised "The upstream Gradio app has raised an exception") (fun _ => None) in
  primary_response w = jsonify [("error", "The upstream Gradio app has raised an exception")] 500 /\
  responds_unless_cleanup_raises w (jsonify [("error", "The upstream Gradio app has raised an exception")] 500) /\
  trace (state_before_cleanup w) =
    [EvGet "http://h/a.jpg"; EvGet "http://g/b.jpg";
     EvPredict (human_input_path w "http://h/a.jpg") (garment_input_path w "http://g/b.jpg")
       (description req_ok)] /\
  recorded (state_before_cleanup w) =
    [Some (human_input_path w "http://h/a.jpg"); Some (garment_input_path w "http://g/b.jpg");
     None; None].
Proof.
  intros w.
  apply (inference_error_500 w req_ok "http://h/a.jpg" "http://g/b.jpg");
    try reflexivity; try discriminate.
Defined.

(** When the human image's scratch file cannot be opened ([OSError], not
    caught by [download_image]), the garment image is never requested: the
    handler answers 500 with the [OSError] message, one GET was issued, the
    file system is unchanged and the clean-up has nothing to remove. *)
Theorem human_open_error_500 : forall w kv hu gu e,
  w_body w = inr (JObj kv) ->
  assoc "human_image_url" kv = Some (JStr hu) -> hu <> "" ->
  assoc "garment_image_url" kv = Some (JStr gu) -> gu <> "" ->
  w_download w hu = DlOpenFailed e ->
  virtual_try_on w =
    (mkSt (w_fs w) 2 [EvGet hu] None None None None, Returned (jsonify [("error", e)] 500)).
Proof.
  intros w kv hu gu e Hb Hh Hhne Hg Hgne Hdh.
  unfold virtual_try_on; run_to_predict Hb Hh Hg Hhne Hgne; rewrite Hdh; run.
  reflexivity.
Qed.

Lemma human_open_error_500_witness :
  let w := mk_world env_ok (inr (JObj req_ok))
             (fun u => if String.eqb u "http://h/a.jpg"
                       then DlOpenFailed "[Errno 28] No space left on device" else DlOk)
             gradio_pair (fun _ => None) in
  virtual_try_on w =
    (mkSt (w_fs w) 2 [EvGet "http://h/a.jpg"] None None None None,
     Returned (jsonify [("error", "[Errno 28] No space left on device")] 500)).
Proof.
  intros w.
  apply (human_open_error_500 w req_ok "http://h/a.jpg" "http://g/b.jpg");
    try reflexivity; try discriminate.
Defined.

(** A truthy human image URL that is not a JSON string (a number, list,
    object or [true]) passes the presence check but makes [os.path.basename]
    raise a [TypeError]: the handler answers 500 with that message before
    any download, and the file system is unchanged. *)
Theorem non_string_url_500 : forall w kv j g,
  w_body w = inr (JObj kv) ->
  assoc "human_image_url" kv = Some j -> truthy j = true -> (forall s, j <> JStr s) ->
  assoc "garment_image_url" kv = Some g -> truthy g = true ->
  virtual_try_on w =
    (mkSt (w_fs w) 1 [] None None None None,
     Returned (jsonify [("error", "expected str, bytes or os.PathLike object, not " ++ type_name j)] 500)).
Proof.
  intros w kv j g Hb Hh Hj Hns Hg Hgt.
  unfold virtual_try_on, try_body, get_json; rewrite Hb; run; rewrite Hh, Hg; run.
  rewrite Hj, Hgt; run.
  destruct j as [| | | s | |]; try (exfalso; exact (Hns s eq_refl)); try discriminate Hj; reflexivity.
Qed.

Lemma non_string_url_500_witness :
  let kv := [("human_image_url", JNum 5); ("garment_image_url", JStr "http://g/b.jpg")] in
  let w := mk_world env_ok (inr (JObj kv)) (fun _ => DlOk) gradio_pair (fun _ => None) in
  virtual_try_on w =
    (mkSt (w_fs w) 1 [] None None None None,
     Returned (jsonify [("error", "expected str, bytes or os.PathLike object, not " ++
                                   type_name (JNum 5))] 500)).
Proof.
  intros kv w.
  apply (non_string_url_500 w kv (JNum 5) (JStr "http://g/b.jpg")); try reflexivity.
  intros s H; discriminate H.
Defined.

(** ** Invariants of every request *)


Lemma try_body_shape : forall w,
  match snd (try_body w (init_state w)) with Ok r => response_shape_ok r | Exc _ => True end /\
  length (filter is_upload (trace (fst (try_body w (init_state w))))) <= 2.
Proof.
  intros w; unfold try_body, get_json; crunch_all; brute.
  all: cbn; unfold response_shape_ok; cbn; try lia; try tauto.
  all: split; [ first [ left; split; reflexivity | right; left; split; reflexivity
                      | right; right; split; reflexivity ] | lia ].
Qed.

(** Whenever the handler returns a response (rather than letting a clean-up
    exception escape), it is one of three forms: 200 with exactly the keys
    [output_url] and [masked_url], in that order; 400 with exactly the
    missing-URL error; or 500 with the single key [error]. *)
Theorem response_shape : forall w r,
  snd (virtual_try_on w) = Returned r -> response_shape_ok r.
Proof.
  intros w r Hr.
  destruct (cleanup_outcome w) as [_ [Ho | [q [e [_ [_ Ho]]]]]]; rewrite Hr in Ho; [|discriminate Ho].
  injection Ho as ->; unfold primary_response.
  destruct (try_body_shape w) as [Hs _].
  destruct (try_body w (init_state w)) as [s1 [r'|e]]; cbn in Hs |- *; [exact Hs|].
  right; right; split; reflexivity.
Qed.

Lemma response_shape_witness :
  let w := mk_world env_ok (inr (JObj req_ok)) (fun _ => DlOk) gradio_pair (fun _ => None) in
  response_shape_ok (primary_response w).
Proof. intros w; apply (response_shape w); vm_compute; reflexivity. Defined.

Lemma filter_upload_removes : forall nw, Forall is_remove nw -> filter is_upload nw = [].
Proof.
  induction nw as [|ev nw IH]; intros H; [reflexivity|].
  inversion H as [|? ? Hev Hnw]; subst; destruct ev; try destruct Hev; cbn; exact (IH Hnw).
Qed.

(** A request issues at most two uploads to the bucket, whatever the
    request, the downloads, the inference and the storage backend do. *)
Theorem at_most_two_uploads : forall w,
  length (filter is_upload (trace (fst (virtual_try_on w)))) <= 2.
Proof.
  intros w; destruct (cleanup_outcome w) as [[nw [Ht Hf]] _]; rewrite Ht.
  rewrite filter_app, (filter_upload_removes nw Hf), app_nil_r.
  exact (proj2 (try_body_shape w)).
Qed.
